(** * Community matching pipeline: a shallow embedding and its properties

    The development follows the Python package [matching_system]:
    - [celery_tasks.py]: the task orchestrator, the hybrid matcher with its
      diversity injection, and the tiered decision engine;
    - [ai_services.py]: the language-model calls and their local fallbacks;
    - [database.py]: the data store, seen through the results of its queries
      and through the membership table that the auto-join writes;
    - [cache.py]: the vector cache and the publication of a result;
    - [websocket_server.py]: the connection registry and the fan-out.

    Python values are embedded as follows.  A [float] is a binary64 number,
    Rocq's primitive [float], compared with the IEEE comparisons.  A [str]
    that is only passed around and compared (an identifier, a category, a
    city) is a [string]; free text is a list of code points.  A dictionary
    with a fixed set of keys is a record, a key that may be missing is an
    [option] field.  [Dict[str, Set[str]]] is a [gmap string (gset string)].
    A value that the code passes on without checking its type (the three
    values of the sanitize answer) is a [Json.value].  An exception is the
    left summand of [Res].

    A remote collaborator (PostgreSQL, Pinecone, OpenAI, Redis, Socket.IO)
    is a record of the outcomes of its calls, [inl] for a call that raises;
    what the code itself writes (memberships, cache, published results,
    task states, the connection registry) is state, threaded through the
    monad [St].  Coroutines are run to completion one after the other, as
    [run_async] does for a task; the handlers of the gateway are taken one
    at a time. *)

From Stdlib Require Import Floats ZArith NArith Ascii String.
From stdpp Require Import gmap strings list fin_maps sorting.

#[local] Set Warnings "-inexact-float,-clear-no-such-hyp,-register-all".
#[local] Open Scope Z_scope.

(** ** Exceptions and results *)

Inductive exn : Type :=
| KeyError (key : string)
| TypeError (message : string)
| ValidationError (model : string)
| CollaboratorError (service : string).

Definition Res (A : Type) : Type := exn + A.

Definition raise {A : Type} (e : exn) : Res A := inl e.
Definition ok {A : Type} (a : A) : Res A := inr a.

(** ** Python floats *)

Module PyFloat.

(** [a > b], [a >= b] and [a < b] on Python floats. *)
Definition gt (a b : float) : bool := PrimFloat.ltb b a.
Definition ge (a b : float) : bool := PrimFloat.leb b a.
Definition lt (a b : float) : bool := PrimFloat.ltb a b.
Definition le (a b : float) : bool := PrimFloat.leb a b.

(** The builtin [max] over a non-empty sequence: the first element is the
    running maximum, replaced by a later one only when that one is
    strictly greater. *)
Definition max_list (x : float) (xs : list float) : float :=
  foldl (fun best y => if gt y best then y else best) x xs.

End PyFloat.

(** ** Python text

    Free text (the bio, the tags, the generated introduction) is a sequence
    of Unicode code points, which is what the [re] module works on. *)

Definition pystr : Type := list N.

(** A literal, character by character. *)
Definition lit (s : string) : pystr :=
  (fun a => N_of_ascii a) <$> list_ascii_of_string s.

(** ** Values of unchecked type

    What [json.loads] returns: [None], a [bool], an [int], a [float], a
    [str], a [list] or a [dict] of such values.  A [dict] is the list of
    its items, in the order of iteration. *)

Module Json.

Inductive value : Type :=
| JNull
| JBool (b : bool)
| JInt (n : Z)
| JFloat (x : float)
| JStr (s : pystr)
| JArray (items : list value)
| JObject (items : list (pystr * value)).

(** [str(v)], which is what an f-string puts for [{v}].  A [str] is
    itself; [str_other] gives the text of a value of another type (the
    [repr] of numbers and containers is not embedded). *)
Definition py_str (str_other : value -> pystr) (v : value) : pystr :=
  match v with
  | JStr s => s
  | _ => str_other v
  end.

(** The elements that [str.join] draws from [v]: the items of a [list],
    the characters of a [str], the keys of a [dict]; [TypeError] for a
    value that is not iterable. *)
Definition iterate (v : value) : Res (list value) :=
  match v with
  | JArray items => ok items
  | JStr s => ok ((fun c => JStr [c]) <$> s)
  | JObject items => ok ((fun item => JStr item.1) <$> items)
  | _ => raise (TypeError "can only join an iterable")
  end.

(** The check of [str.join] on its items: each has to be a [str].  The
    message of the exception, which goes on with the index and the type
    of the item, is cut short. *)
Fixpoint all_str (items : list value) : Res (list pystr) :=
  match items with
  | [] => ok []
  | JStr s :: rest =>
      match all_str rest with
      | inr parts => ok (s :: parts)
      | inl e => inl e
      end
  | _ :: _ => raise (TypeError "sequence item: expected str instance")
  end.

End Json.

(** ** The part of [re] that [_basic_pii_removal] uses *)

Module Re.

Definition in_range (lo hi c : N) : bool := ((lo <=? c) && (c <=? hi))%N.
Definition is_char (a : string) (c : N) : bool := bool_decide (lit a = [c]).

Definition AZ (c : N) : bool := in_range 65 90 c.
Definition az (c : N) : bool := in_range 97 122 c.
Definition d09 (c : N) : bool := in_range 48 57 c.

Section Unicode.

(** The Unicode database past ASCII, as [str.isalnum] and
    [str.isdecimal] read it. *)
Variables (isalnum_high isdecimal_high : N -> bool).

(** [\w] and [\d] of a [str] pattern. *)
Definition word_char (c : N) : bool :=
  if (c <? 128)%N then AZ c || az c || d09 c || is_char "_" c
  else isalnum_high c.
Definition digit_char (c : N) : bool :=
  if (c <? 128)%N then d09 c else isdecimal_high c.

(** A pattern is a sequence of atoms: [\b], or a character class under
    a greedy quantifier [{lo,hi}] ([hi = None] for no upper bound). *)
Inductive atom : Type :=
| WordBoundary
| Repeat (class : N -> bool) (lo : nat) (hi : option nat).

Definition is_word (c : option N) : bool :=
  match c with Some x => word_char x | None => false end.

(** [\b] holds between [prev] and the next character when exactly one
    of the two is a word character; the ends of the text count as
    non-word. *)
Definition at_boundary (prev : option N) (s : pystr) : bool :=
  xorb (is_word prev) (is_word (head s)).

(** A greedy quantifier: take one more character while the class and
    the upper bound allow and the rest of the pattern then matches;
    otherwise stop here if the lower bound is reached.  [k] matches the
    rest of the pattern and returns the text left after the match. *)
Fixpoint repeat_greedy (class : N -> bool) (lo : nat) (hi : option nat)
    (k : option N -> pystr -> option pystr)
    (count : nat) (prev : option N) (s : pystr) {struct s} : option pystr :=
  let stop := if (lo <=? count)%nat then k prev s else None in
  match s with
  | c :: s' =>
      if class c && match hi with Some h => (count <? h)%nat | None => true end
      then match repeat_greedy class lo hi k (S count) (Some c) s' with
           | Some rest => Some rest
           | None => stop
           end
      else stop
  | [] => stop
  end.

(** The anchored match at one position. *)
Fixpoint match_here (p : list atom) (prev : option N) (s : pystr)
    : option pystr :=
  match p with
  | [] => Some s
  | WordBoundary :: p' =>
      if at_boundary prev s then match_here p' prev s else None
  | Repeat class lo hi :: p' =>
      repeat_greedy class lo hi (match_here p') 0 prev s
  end.

(** [re.sub(p, repl, text)] for a pattern that consumes at least one
    character: scan left to right, replace each leftmost match, resume
    after it.  [skip] counts the characters of the current match still
    to pass. *)
Fixpoint sub_from (p : list atom) (repl : pystr) (prev : option N)
    (skip : nat) (s : pystr) : pystr :=
  match s with
  | [] => []
  | c :: s' =>
      match skip with
      | S n => sub_from p repl (Some c) n s'
      | O =>
          match match_here p prev s with
          | Some rest =>
              repl ++ sub_from p repl (Some c) (length s' - length rest) s'
          | None => c :: sub_from p repl (Some c) 0 s'
          end
      end
  end.

Definition sub (p : list atom) (repl : pystr) (text : pystr) : pystr :=
  sub_from p repl None 0 text.

Definition one (class : N -> bool) : atom := Repeat class 1 (Some 1%nat).
Definition plus (class : N -> bool) : atom := Repeat class 1 None.
Definition opt (class : N -> bool) : atom := Repeat class 0 (Some 1%nat).
Definition exactly (n : nat) (class : N -> bool) : atom :=
  Repeat class n (Some n).
Definition at_least (n : nat) (class : N -> bool) : atom :=
  Repeat class n None.

(** [\b[A-Za-z0-9._%+-]+@[A-Za-z0-9.-]+\.[A-Z|a-z]{2,}\b] *)
Definition email_pattern : list atom :=
  [ WordBoundary;
    plus (fun c => AZ c || az c || d09 c || is_char "." c || is_char "_" c
                   || is_char "%" c || is_char "+" c || is_char "-" c);
    one (is_char "@");
    plus (fun c => AZ c || az c || d09 c || is_char "." c || is_char "-" c);
    one (is_char ".");
    at_least 2 (fun c => AZ c || is_char "|" c || az c);
    WordBoundary ].

(** [\b\d{3}[-.]?\d{3}[-.]?\d{4}\b] *)
Definition phone_pattern : list atom :=
  [ WordBoundary;
    exactly 3 digit_char;
    opt (fun c => is_char "-" c || is_char "." c);
    exactly 3 digit_char;
    opt (fun c => is_char "-" c || is_char "." c);
    exactly 4 digit_char;
    WordBoundary ].

End Unicode.

End Re.

(** ** models.py *)

Module Models.

Inductive MatchTier : Type := SOULMATE | EXPLORER | FALLBACK.

(** Modelled from the spec: [models.py] is not among the sources; the
    fields of [CommunityMatch] are the keyword arguments that
    [_to_community_match] passes. *)
Record CommunityMatch : Type := mkCommunityMatch {
  cm_community_id : string;
  cm_community_name : pystr;
  cm_category : string;
  cm_match_score : float;
  cm_member_count : Z;
  cm_recent_activity : Z
}.

(** Modelled from the spec: [models.py] is not among the sources; the
    fields of [MatchResult] are the keyword arguments of its
    constructions in [_apply_decision_engine].  A field that a
    construction leaves out takes its default: no auto-joined community,
    no introduction generated, no profile update requested (the spec's
    "absent/false"). *)
Record MatchResult : Type := mkMatchResult {
  task_id : string;
  user_id : string;
  tier : MatchTier;
  matches : list CommunityMatch;
  auto_joined_community : option string;
  ai_intro_generated : bool;
  requires_profile_update : bool;
  processing_time_ms : Z
}.

Definition set_processing_time_ms (r : MatchResult) (ms : Z) : MatchResult :=
  mkMatchResult (task_id r) (user_id r) (tier r) (matches r)
    (auto_joined_community r) (ai_intro_generated r)
    (requires_profile_update r) ms.

(** The validated request body ([UserProfileInput.dict()]). *)
Record UserData : Type := mkUserData {
  ud_user_id : string;
  ud_bio : pystr;
  ud_interest_tags : list pystr;
  ud_city : string;
  ud_timezone : string
}.

(** Modelled from the spec: [models.py] is not among the sources; the
    fields of [SanitizedProfile] are the keyword arguments of its
    construction in [process_match_task], three of which are the values of
    the sanitize step as they come. *)
Record SanitizedProfile : Type := mkSanitizedProfile {
  sp_user_id : string;
  sp_sanitized_bio : Json.value;
  sp_enriched_tags : Json.value;
  sp_city : string;
  sp_timezone : string;
  sp_pii_removed : Json.value
}.

(** The construction [SanitizedProfile(...)].  Whether the model checks
    the types of its fields is written in [models.py]; [rejects] is the
    exception that the construction raises on the given values, if it
    raises. *)
Definition new_SanitizedProfile (rejects : option exn) (user_id : string)
    (sanitized_bio enriched_tags : Json.value) (city timezone : string)
    (pii_removed : Json.value) : Res SanitizedProfile :=
  match rejects with
  | Some e => raise e
  | None =>
      ok (mkSanitizedProfile user_id sanitized_bio enriched_tags city timezone
            pii_removed)
  end.

End Models.

(** ** The state that a task run reads and writes *)

Module Runtime.
Import Models.

(** The calls of [self.update_state]. *)
Inductive TaskUpdate : Type :=
| PROCESSING (step : string)
| FAILED (error : exn).

Record World : Type := mkWorld {
  (** the table [community_members], as its key [(user_id, community_id)] *)
  community_members : gset (string * string);
  (** the keys [user_vector:{user_id}] of the cache *)
  user_vectors : gmap string (list float);
  (** what was published, oldest first, by user of the channel
      [match_updates_{user_id}] *)
  published : list (string * MatchResult);
  (** the task states written so far, oldest first *)
  task_updates : list TaskUpdate
}.

(** A computation that reads and writes a state [S] and may raise.  The
    state at the raise is kept: nothing is rolled back. *)
Definition St (S A : Type) : Type := S -> S * Res A.

Section St.
Context {S : Type}.

Definition ret {A : Type} (a : A) : St S A := fun w => (w, ok a).
Definition throw {A : Type} (e : exn) : St S A := fun w => (w, raise e).
Definition bind {A B : Type} (m : St S A) (f : A -> St S B) : St S B :=
  fun w => match m w with
           | (w', inr a) => f a w'
           | (w', inl e) => (w', inl e)
           end.
(** A call whose outcome does not depend on the state. *)
Definition call {A : Type} (r : Res A) : St S A := fun w => (w, r).

(** [try: body except Exception as e: handler(e)] *)
Definition try_except {A : Type} (body : St S A) (handler : exn -> St S A)
    : St S A :=
  fun w => match body w with
           | (w', inl e) => handler e w'
           | (w', inr a) => (w', inr a)
           end.
End St.

Abbreviation M := (St World).

Definition update_state (u : TaskUpdate) : M unit :=
  fun w => (mkWorld (community_members w) (user_vectors w) (published w)
              (task_updates w ++ [u]), ok tt).

End Runtime.

#[global] Instance St_ret {S : Type} : MRet (Runtime.St S) := @Runtime.ret S.
#[global] Instance St_bind {S : Type} : MBind (Runtime.St S) :=
  fun A B f m => Runtime.bind m f.

(** ** database.py *)

Module Database.
Import Runtime.

(** A community dictionary.  The rows of both SQL queries carry every key
    but ["match_score"]; the dictionaries that the hybrid matcher builds
    carry it. *)
Record Dict : Type := mkDict {
  community_id : string;
  community_name : pystr;
  category : string;
  match_score : option float;
  member_count : Z;
  recent_activity : Z
}.

(** An entry of [vector_search]'s result. *)
Record Hit : Type := mkHit {
  hit_community_id : string;
  hit_match_score : float
}.

(** A row of [get_community_members_for_intro]. *)
Record Member : Type := mkMember {
  member_user_id : string;
  username : pystr;
  message_count : Z
}.

(** A row of [get_community_details]; [description] is the one column
    that the callers read. *)
Record Details : Type := mkDetails {
  description : pystr
}.

(** The data store as one task run sees it: what each query returns,
    [inl] when the call raises.  [insert_fails] tells whether the
    [INSERT] of [auto_join_community] reaches the store. *)
Record DatabaseManager : Type := mkDatabaseManager {
  filter_communities_by_location : string -> string -> Z -> Res (list Dict);
  vector_search : list float -> list string -> Z -> Res (list Hit);
  get_community_details : list string -> Res (gmap string Details);
  get_popular_communities : Z -> Res (list Dict);
  get_community_members_for_intro : string -> Z -> Res (list Member);
  insert_fails : option exn
}.

(** [INSERT ... ON CONFLICT (user_id, community_id) DO NOTHING RETURNING
    user_id]: a row is returned exactly when one was inserted. *)
Definition auto_join_community (db : DatabaseManager)
    (user_id community_id : string) : M bool :=
  fun w =>
    match insert_fails db with
    | Some e => (w, raise e)
    | None =>
        if decide ((user_id, community_id) ∈ community_members w)
        then (w, ok false)
        else (mkWorld ({[ (user_id, community_id) ]} ∪ community_members w)
                (user_vectors w) (published w) (task_updates w), ok true)
    end.

End Database.

(** ** cache.py *)

Module Cache.
Import Models Runtime.

(** [setex_fails] and [publish_fails] tell whether the two Redis calls
    raise. *)
Record CacheManager : Type := mkCacheManager {
  setex_fails : option exn;
  publish_fails : option exn
}.

Definition set_user_vector (cache : CacheManager) (user_id : string)
    (vector : list float) : M unit :=
  fun w =>
    match setex_fails cache with
    | Some e => (w, raise e)
    | None => (mkWorld (community_members w)
                 (<[user_id := vector]> (user_vectors w))
                 (published w) (task_updates w), ok tt)
    end.

Definition publish_match_result (cache : CacheManager) (user_id : string)
    (result : MatchResult) : M unit :=
  fun w =>
    match publish_fails cache with
    | Some e => (w, raise e)
    | None => (mkWorld (community_members w) (user_vectors w)
                 (published w ++ [(user_id, result)]) (task_updates w), ok tt)
    end.

End Cache.

(** ** ai_services.py *)

Module AIServices.

(** The language-model service as one task run sees it: what each remote
    call returns, [inl] when the call or the reading of its response
    raises.
    - [sanitize_completion bio tags]: the chat completion for the
      sanitize prompt, [json.loads] of its content and the reading of
      the keys ["sanitized_bio"], ["enriched_tags"] and ["pii_found"],
      whose values are of any type;
    - [intro_completion bio name description mentioned]: the chat
      completion for the introduction prompt, its content stripped;
    - [moderations_create text]: the scores of the categories hate,
      harassment, violence and sexual, in this order. *)
Record OpenAI : Type := mkOpenAI {
  sanitize_completion :
    pystr -> list pystr -> Res (Json.value * Json.value * Json.value);
  embeddings_create : pystr -> Res (list float);
  intro_completion : pystr -> pystr -> pystr -> option pystr -> Res pystr;
  moderations_create : pystr -> Res (float * float * float * float)
}.

(** [sep.join(parts)] *)
Fixpoint join (sep : pystr) (parts : list pystr) : pystr :=
  match parts with
  | [] => []
  | [x] => x
  | x :: rest => x ++ sep ++ join sep rest
  end.

Section AIService.

Variables (isalnum_high isdecimal_high : N -> bool).
Variable str_other : Json.value -> pystr.
Variable openai : OpenAI.

Definition _basic_pii_removal (text : pystr) : pystr :=
  let text := Re.sub isalnum_high Re.email_pattern
                (lit "[email removed]") text in
  let text := Re.sub isalnum_high (Re.phone_pattern isdecimal_high)
                (lit "[phone removed]") text in
  text.

(** The three values are returned as [json.loads] gave them; the
    fallback returns a [str], the list of tags it was given, and [False]. *)
Definition sanitize_and_enrich_profile (bio : pystr)
    (interest_tags : list pystr) : Json.value * Json.value * Json.value :=
  match sanitize_completion openai bio interest_tags with
  | inr result => result
  | inl _ =>
      let sanitized_bio := _basic_pii_removal bio in
      (Json.JStr sanitized_bio, Json.JArray (Json.JStr <$> interest_tags),
       Json.JBool false)
  end.

Definition generate_embedding (text : pystr) : Res (list float) :=
  embeddings_create openai text.

(** [", ".join(tags)] raises [TypeError] when [tags] cannot be iterated
    or yields an item that is not a [str]. *)
Definition create_embedding_payload (bio tags : Json.value) : Res pystr :=
  match Json.iterate tags with
  | inl e => inl e
  | inr items =>
      match Json.all_str items with
      | inl e => inl e
      | inr parts =>
          let tags_text := join (lit ", ") parts in
          ok (lit "Bio: " ++ Json.py_str str_other bio ++ [10%N]
                ++ lit "Interests: " ++ tags_text)
      end
  end.

Definition _check_toxicity (text : pystr) : float :=
  match moderations_create openai text with
  | inr (hate, harassment, violence, sexual) =>
      PyFloat.max_list hate [harassment; violence; sexual]
  | inl _ => 0.0%float
  end.

Definition generate_ai_introduction (user_bio community_name
    community_description : pystr) (active_members : list Database.Member)
    : pystr * option pystr * float :=
  let mentioned_member :=
    match active_members with
    | m :: _ => Some (Database.username m)
    | [] => None
    end in
  match intro_completion openai user_bio community_name
          community_description mentioned_member with
  | inr intro_text =>
      let toxicity_score := _check_toxicity intro_text in
      (intro_text, mentioned_member, toxicity_score)
  | inl _ =>
      (lit "Welcome to " ++ community_name
         ++ lit "! We're excited to have you here.", None, 0.0%float)
  end.

End AIService.

End AIServices.

(** ** celery_tasks.py *)

Module CeleryTasks.
Import Models Runtime Database Cache AIServices.

(** [collections.Counter] over a list of keys. *)
Definition Counter (keys : list string) : gmap string nat :=
  foldl (fun m k => <[k := S (default 0%nat (m !! k))]> m) ∅ keys.

(** [l.insert(i, x)]: an index past the end appends. *)
Definition py_insert {A : Type} (i : nat) (x : A) (l : list A) : list A :=
  take i l ++ x :: drop i l.

(** The body of [for i in range(3, len(matches))], over the indices still
    to visit.  On the first entry of another category, [matches.pop(i)]
    and [matches.insert(2, _)] run and the loop breaks. *)
Fixpoint diversity_scan (dominant_category : string) (indices : list nat)
    (matches : list Dict) : list Dict :=
  match indices with
  | [] => matches
  | i :: indices' =>
      match matches !! i with
      | Some m =>
          if decide (category m ≠ dominant_category)
          then py_insert 2 m (delete i matches)
          else diversity_scan dominant_category indices' matches
      | None => matches (* no such index in [range(3, len(matches))] *)
      end
  end.

Definition _apply_diversity_filter (matches : list Dict) : list Dict :=
  if decide (length matches < 4)%nat then matches
  else
    let top_3_categories := category <$> take 3 matches in
    let category_counts := Counter top_3_categories in
    if decide (size category_counts = 1%nat) then
      match top_3_categories !! 0%nat with
      | Some dominant_category =>
          diversity_scan dominant_category
            (seq 3 (length matches - 3)) matches
      | None => matches (* [top_3_categories] has three entries here *)
      end
    else matches.

(** [{c["community_id"]: c for c in filtered_communities}]: a later row
    replaces an earlier one with the same identifier. *)
Definition community_map_of (filtered_communities : list Dict)
    : gmap string Dict :=
  foldl (fun m c => <[community_id c := c]> m) ∅ filtered_communities.

(** The loop over [vector_matches] that fills [enriched_matches]. *)
Fixpoint enrich (community_map : gmap string Dict)
    (vector_matches : list Hit) : list Dict :=
  match vector_matches with
  | [] => []
  | vm :: rest =>
      let comm_id := hit_community_id vm in
      match community_map !! comm_id with
      | Some community =>
          mkDict comm_id (community_name community) (category community)
            (Some (hit_match_score vm)) (member_count community)
            (recent_activity community)
          :: enrich community_map rest
      | None => enrich community_map rest
      end
  end.

(** [_to_community_match(community, score)], [score = None] when the
    caller leaves it out. *)
Definition _to_community_match (community : Dict) (score : option float)
    : CommunityMatch :=
  mkCommunityMatch (community_id community) (community_name community)
    (category community)
    (match score with
     | Some s => s
     | None => default 0.0%float (match_score community)
     end)
    (member_count community) (recent_activity community).

Section Task.

Variables (isalnum_high isdecimal_high : N -> bool).
Variable str_other : Json.value -> pystr.
(** The exception that [SanitizedProfile(...)] raises on the three values
    of the sanitize step, if it raises. *)
Variable profile_error : Json.value -> Json.value -> Json.value -> option exn.
Variable db_manager : DatabaseManager.
Variable openai : OpenAI.
Variable cache_manager : CacheManager.

Definition _hybrid_matching_algorithm (user_vector : list float)
    (city timezone : string) : M (list Dict) :=
  filtered_communities ←
    call (filter_communities_by_location db_manager city timezone 1000);
  match filtered_communities with
  | [] => call (get_popular_communities db_manager 5)
  | _ :: _ =>
      let community_ids := community_id <$> filtered_communities in
      vector_matches ←
        call (vector_search db_manager user_vector community_ids 20);
      let community_map := community_map_of filtered_communities in
      let enriched_matches := enrich community_map vector_matches in
      mret (_apply_diversity_filter enriched_matches)
  end.

(** The construction shared by the two fallback returns. *)
Definition fallback_result (task_id user_id : string) : M MatchResult :=
  popular ← call (get_popular_communities db_manager 5);
  mret (mkMatchResult task_id user_id FALLBACK
          ((fun c => _to_community_match c (Some 0.0%float)) <$> popular)
          None false true 0).

Definition _apply_decision_engine (task_id user_id : string)
    (user_bio : pystr) (matches : list Dict) : M MatchResult :=
  match matches with
  | [] => fallback_result task_id user_id
  | top_match :: _ =>
      match match_score top_match with
      | None => throw (KeyError "match_score")
      | Some top_score =>
          if PyFloat.gt top_score 0.87 then
            joined ← auto_join_community db_manager user_id
                       (community_id top_match);
            ai_intro_generated ←
              (if joined : bool then
                 active_members ←
                   call (get_community_members_for_intro db_manager
                           (community_id top_match) 5);
                 community_details ←
                   call (get_community_details db_manager
                           [community_id top_match]);
                 let community :=
                   community_details !! community_id top_match in
                 let '(intro_text, mentioned_member, toxicity) :=
                   generate_ai_introduction openai user_bio
                     (community_name top_match)
                     (default [] (description <$> community))
                     active_members in
                 mret (if PyFloat.lt toxicity 0.75 then true else false)
               else mret false);
            mret (mkMatchResult task_id user_id SOULMATE
                    [_to_community_match top_match None]
                    (Some (community_id top_match))
                    ai_intro_generated false 0)
          else if PyFloat.ge top_score 0.55 then
            let explorer_matches := take 5 matches in
            mret (mkMatchResult task_id user_id EXPLORER
                    ((fun m => _to_community_match m None)
                       <$> explorer_matches)
                    None false false 0)
          else fallback_result task_id user_id
      end
  end.

(** [process_match_task]; [request_id] is [self.request.id] and
    [elapsed_ms] the time measured when the decision engine returns.  The
    engine does nothing with [user_bio] but format it into the prompt of
    the introduction, so it is given the text that the f-string puts. *)
Definition process_match_task (request_id : string) (elapsed_ms : Z)
    (user_data : UserData) : M MatchResult :=
  let task_id := request_id in
  try_except
    (update_state (PROCESSING "sanitization");;
     let '(sanitized_bio, enriched_tags, pii_removed) :=
       sanitize_and_enrich_profile isalnum_high isdecimal_high openai
         (ud_bio user_data) (ud_interest_tags user_data) in
     sanitized_profile ←
       call (new_SanitizedProfile
               (profile_error sanitized_bio enriched_tags pii_removed)
               (ud_user_id user_data) sanitized_bio enriched_tags
               (ud_city user_data) (ud_timezone user_data) pii_removed);
     update_state (PROCESSING "vectorization");;
     embedding_text ←
       call (create_embedding_payload str_other sanitized_bio enriched_tags);
     user_vector ← call (generate_embedding openai embedding_text);
     set_user_vector cache_manager (ud_user_id user_data) user_vector;;
     update_state (PROCESSING "hybrid_matching");;
     matches ← _hybrid_matching_algorithm user_vector
                 (sp_city sanitized_profile)
                 (sp_timezone sanitized_profile);
     update_state (PROCESSING "decision_engine");;
     result ← _apply_decision_engine task_id (ud_user_id user_data)
                (Json.py_str str_other sanitized_bio) matches;
     let processing_time := elapsed_ms in
     let result := set_processing_time_ms result processing_time in
     publish_match_result cache_manager (ud_user_id user_data) result;;
     mret result)
    (fun e => update_state (FAILED e);; throw e).

End Task.

End CeleryTasks.

(** ** websocket_server.py *)

Module WebsocketServer.
Import Models Runtime.

(** What [sio.emit] sends. *)
Inductive Payload : Type :=
| MatchResultPayload (status : string) (result : MatchResult)
| ConnectionStatus (status user_id message : string).

Record Emit : Type := mkEmit {
  event : string;
  data : Payload;
  room : string
}.

Record Gateway : Type := mkGateway {
  (** [active_connections]: [{user_id: {sid1, sid2, ...}}] *)
  active_connections : gmap string (gset string);
  (** the ['user_id'] entry of each Socket.IO session, by [sid] *)
  sessions : gmap string string;
  (** every call of [sio.emit], oldest first, delivered or not *)
  emitted : list Emit
}.

(** The transport as one handler run sees it: whether [sio.emit] to a
    room raises, and whether opening the session of a [sid] raises. *)
Record SocketIO : Type := mkSocketIO {
  emit_fails : string -> option exn;
  session_fails : string -> option exn
}.

Section Server.

Variable sio : SocketIO.

Definition emit (ev : string) (payload : Payload) (sid : string)
    : St Gateway unit :=
  fun g =>
    (mkGateway (active_connections g) (sessions g)
       (emitted g ++ [mkEmit ev payload sid]),
     match emit_fails sio sid with
     | Some e => raise e
     | None => ok tt
     end).

(** [active_connections[user_id].discard(sid)] *)
Definition discard_connection (user_id sid : string) : St Gateway unit :=
  fun g =>
    match active_connections g !! user_id with
    | Some sids =>
        (mkGateway (<[user_id := sids ∖ {[sid]}]> (active_connections g))
           (sessions g) (emitted g), ok tt)
    | None => (g, raise (KeyError user_id))
    end.

(** The loop [for sid in sids] of [broadcast_to_user], over the
    connections in the order of the iteration. *)
Fixpoint broadcast_loop (user_id : string) (match_result : MatchResult)
    (sids : list string) : St Gateway unit :=
  match sids with
  | [] => mret tt
  | sid :: rest =>
      try_except
        (emit "match_result"
           (MatchResultPayload "completed" match_result) sid)
        (fun _ => discard_connection user_id sid);;
      broadcast_loop user_id match_result rest
  end.

Definition broadcast_to_user (user_id : string)
    (match_result : MatchResult) : St Gateway unit :=
  fun g =>
    match active_connections g !! user_id with
    | None => (g, ok tt)
    | Some connections =>
        let sids := connections in
        broadcast_loop user_id match_result (elements sids) g
    end.

Definition open_session (sid : string) : St Gateway unit :=
  call (match session_fails sio sid with
        | Some e => raise e
        | None => ok tt
        end).

(** [if user_id not in active_connections: active_connections[user_id]
    = set()], then [active_connections[user_id].add(sid)]. *)
Definition track_connection (user_id sid : string) : St Gateway unit :=
  fun g =>
    let connections := default ∅ (active_connections g !! user_id) in
    (mkGateway
       (<[user_id := connections ∪ {[sid]}]> (active_connections g))
       (sessions g) (emitted g), ok tt).

(** [session['user_id'] = user_id] *)
Definition store_session (sid user_id : string) : St Gateway unit :=
  fun g =>
    (mkGateway (active_connections g) (<[sid := user_id]> (sessions g))
       (emitted g), ok tt).

(** [session.get('user_id')] *)
Definition session_user (sid : string) : St Gateway (option string) :=
  fun g => (g, ok (sessions g !! sid)).

(** [connect(sid, environ, auth)]; [auth_user_id] is
    [auth.get('user_id') if auth else None]. *)
Definition connect (sid : string) (auth_user_id : option string)
    : St Gateway bool :=
  try_except
    (match auth_user_id with
     | None => mret false
     | Some user_id =>
         if decide (user_id = "") then mret false
         else
           track_connection user_id sid;;
           open_session sid;;
           store_session sid user_id;;
           emit "connection_status"
             (ConnectionStatus "connected" user_id
                "Ready to receive match updates") sid;;
           mret true
     end)
    (fun _ => mret false).

(** The body of [if user_id and user_id in active_connections] in
    [disconnect]: discard the connection, then delete the key of a set
    left empty. *)
Definition forget_connection (user_id sid : string) : St Gateway unit :=
  fun g =>
    match active_connections g !! user_id with
    | Some connections =>
        let connections := connections ∖ {[sid]} in
        (mkGateway
           (if decide (connections = ∅)
            then delete user_id (active_connections g)
            else <[user_id := connections]> (active_connections g))
           (sessions g) (emitted g), ok tt)
    | None => (g, ok tt)
    end.

(** [disconnect(sid)] *)
Definition disconnect (sid : string) : St Gateway unit :=
  try_except
    (open_session sid;;
     user ← session_user sid;
     match user with
     | Some user_id =>
         if decide (user_id = "") then mret tt
         else forget_connection user_id sid
     | None => mret tt
     end)
    (fun _ => mret tt).

(** Every user key holds at least one connection. *)
Definition no_empty_sets (connections : gmap string (gset string)) : Prop :=
  forall user_id sids, connections !! user_id = Some sids -> sids ≠ ∅.

End Server.

End WebsocketServer.

Import Models Runtime Database Cache AIServices CeleryTasks WebsocketServer.

(** * Result shapes and example inputs *)

(** The Explorer result for a ranked list. *)
Definition explorer_result (task_id user_id : string) (matches : list Dict)
    : MatchResult :=
  mkMatchResult task_id user_id EXPLORER
    ((fun m => _to_community_match m None) <$> take 5 matches)
    None false false 0.

(** The Fallback result for a popular-communities list. *)
Definition popular_result (task_id user_id : string) (popular : list Dict)
    : MatchResult :=
  mkMatchResult task_id user_id FALLBACK
    ((fun c => _to_community_match c (Some 0.0%float)) <$> popular)
    None false true 0.

(** The Soulmate result for a top candidate. *)
Definition soulmate_result (task_id user_id : string) (top_match : Dict)
    (intro_generated : bool) : MatchResult :=
  mkMatchResult task_id user_id SOULMATE [_to_community_match top_match None]
    (Some (community_id top_match)) intro_generated false 0.

(** [cm] shows the community [m] at the score [s]: its identifier, name,
    category, member count and activity are those of [m]. *)
Definition shows (cm : CommunityMatch) (m : Dict) (s : float) : Prop :=
  cm_community_id cm = community_id m
  /\ cm_community_name cm = community_name m
  /\ cm_category cm = category m
  /\ cm_match_score cm = s
  /\ cm_member_count cm = member_count m
  /\ cm_recent_activity cm = recent_activity m.

(** A call that returned. *)
Definition returned {A : Type} (r : Res A) : Prop := exists a, r = inr a.

(** The embedding step of a task: the payload is built from the values of
    the sanitize step, then sent to the embedding call. *)
Definition embedding_step (str_other : Json.value -> pystr) (openai : OpenAI)
    (sanitized_bio enriched_tags : Json.value) : Res (list float) :=
  match create_embedding_payload str_other sanitized_bio enriched_tags with
  | inl e => inl e
  | inr embedding_text => generate_embedding openai embedding_text
  end.

(** The candidates of the spec's first example scenario. *)
Definition cand (id cat : string) (score : float) : Dict :=
  mkDict id (lit id) cat (Some score) 0 0.

Definition spec_example : list Dict :=
  [ cand "A" "Tech" 0.95; cand "B" "Tech" 0.92; cand "C" "Tech" 0.89;
    cand "D" "Gaming" 0.86; cand "E" "Tech" 0.84 ].

(** An empty world: no membership, nothing cached, published or logged. *)
Definition world0 : World := mkWorld ∅ ∅ [] [].

(** A world in which user [u1] already belongs to community [A]. *)
Definition world_member : World := mkWorld {[ ("u1", "A") ]} ∅ [] [].

Definition popular_example : list Dict :=
  [ mkDict "P1" (lit "Popular one") "General" None 900 12;
    mkDict "P2" (lit "Popular two") "Music" None 800 7 ].

(** A data store whose locality filter finds the five communities of the
    spec's example, at the scores [scores] of the similarity search. *)
Definition db_example (scores : list Hit) : DatabaseManager :=
  mkDatabaseManager
    (fun _ _ _ => inr ((fun c => mkDict (community_id c) (community_name c)
                                   (category c) None 0 0) <$> spec_example))
    (fun _ _ _ => inr scores)
    (fun _ => inr ∅)
    (fun _ => inr popular_example)
    (fun _ _ => inr [])
    None.

(** A data store whose locality filter finds nothing. *)
Definition db_no_locality : DatabaseManager :=
  mkDatabaseManager (fun _ _ _ => inr []) (fun _ _ _ => inr [])
    (fun _ => inr ∅) (fun _ => inr popular_example) (fun _ _ => inr []) None.

Definition unavailable : exn := CollaboratorError "openai".

(** A language-model service of which only the embedding call answers. *)
Definition openai_embed_only : OpenAI :=
  mkOpenAI (fun _ _ => inl unavailable) (fun _ => inr [0.1%float; 0.2%float])
    (fun _ _ _ _ => inl unavailable) (fun _ => inl unavailable).

(** A language-model service that writes introductions while its
    moderation endpoint is down. *)
Definition openai_no_moderation : OpenAI :=
  mkOpenAI (fun _ _ => inl unavailable) (fun _ => inr [0.1%float; 0.2%float])
    (fun _ _ _ _ => inr (lit "Welcome!")) (fun _ => inl unavailable).

Definition cache_up : CacheManager := mkCacheManager None None.

(** The score that a candidate carries ([0.0] when the key is missing, as
    in [_to_community_match]). *)
Definition score (m : Dict) : float := default 0.0%float (match_score m).

(** [a] may stand before [b] in a list sorted by score, descending. *)
Definition score_desc (a b : Dict) : Prop :=
  PyFloat.ge (score a) (score b) = true.
Definition hit_desc (a b : Hit) : Prop :=
  PyFloat.ge (hit_match_score a) (hit_match_score b) = true.

(** The order of the data model: score descending, ties broken by member
    count descending, then by community identifier ascending. *)
Definition ranked_before (a b : Dict) : Prop :=
  PyFloat.gt (score a) (score b) = true
  \/ (PrimFloat.eqb (score a) (score b) = true
      /\ (member_count b < member_count a
          \/ (member_count a = member_count b
              /\ String.leb (community_id a) (community_id b) = true))).

(** The similarity-search result of the spec's first example scenario. *)
Definition hits_example : list Hit :=
  [ mkHit "A" 0.95; mkHit "B" 0.92; mkHit "C" 0.89; mkHit "D" 0.86;
    mkHit "E" 0.84 ].

(** The same search result with a hit for a community that the locality
    filter did not return. *)
Definition hits_with_stale : list Hit := mkHit "Z" 0.99 :: hits_example.

(** The output that the spec gives for its example: [D] moved to index 2. *)
Definition spec_example_output : list Dict :=
  [ cand "A" "Tech" 0.95; cand "B" "Tech" 0.92; cand "D" "Gaming" 0.86;
    cand "C" "Tech" 0.89; cand "E" "Tech" 0.84 ].

(** The world after further task states have been written. *)
Definition logged (w : World) (updates : list TaskUpdate) : World :=
  mkWorld (community_members w) (user_vectors w) (published w)
    (task_updates w ++ updates).

(** The world in which the hybrid matcher of a task runs: the user vector
    is cached and three task states are written. *)
Definition world_at_match (w : World) (user_id : string) (v : list float)
    : World :=
  mkWorld (community_members w) (<[user_id := v]> (user_vectors w))
    (published w)
    (task_updates w ++ [PROCESSING "sanitization"; PROCESSING "vectorization";
                        PROCESSING "hybrid_matching"]).

(** The world after a result has been published. *)
Definition with_published (w : World) (user_id : string) (r : MatchResult)
    : World :=
  mkWorld (community_members w) (user_vectors w)
    (published w ++ [(user_id, r)]) (task_updates w).

Definition user_example : UserData :=
  mkUserData "u1" (lit "I code daily. Mail bob@example.com or 555-123-4567.")
    [lit "Python"; lit "AI"] "Pune" "IST".

(** A Unicode table that knows no letter or digit past ASCII; the example
    texts are ASCII. *)
Definition no_high : N -> bool := fun _ => false.

(** A rendering of the values that are not a [str]; the examples whose
    sanitized bio is a [str] never consult it. *)
Definition no_repr : Json.value -> pystr := fun _ => [].

(** A [SanitizedProfile] model that accepts whatever it is given. *)
Definition accept_profile : Json.value -> Json.value -> Json.value
    -> option exn :=
  fun _ _ _ => None.


(** Whether [sio.emit] to a connection goes through. *)
Definition delivered (sio : SocketIO) (sid : string) : bool :=
  match emit_fails sio sid with
  | None => true
  | Some _ => false
  end.

(** The delivery attempt of a match result to one connection. *)
Definition attempt (result : MatchResult) (sid : string) : Emit :=
  mkEmit "match_result" (MatchResultPayload "completed" result) sid.

(** A transport on which the connection [s2] is stale. *)
Definition sio_s2_stale : SocketIO :=
  mkSocketIO
    (fun sid => if decide (sid = "s2")
                then Some (CollaboratorError "socket") else None)
    (fun _ => None).

(** A gateway on which user [u1] holds three connections and [u2] one. *)
Definition gateway_three : Gateway :=
  mkGateway {[ "u1" := {[ "s1"; "s2"; "s3" ]}; "u2" := {[ "s9" ]} ]}
    {[ "s1" := "u1"; "s2" := "u1"; "s3" := "u1"; "s9" := "u2" ]} [].

(** A gateway on which user [u1] holds the single connection [s2]. *)
Definition gateway_one : Gateway :=
  mkGateway {[ "u1" := {[ "s2" ]} ]} {[ "s2" := "u1" ]} [].

Definition result_example : MatchResult :=
  explorer_result "t1" "u1" spec_example_output.

(** * The result channel and its listener *)

Module PyStr.

(** [s.replace(old, new)] for a non-empty [old]: scan left to right, replace
    each occurrence of [old] that starts where no earlier one is still
    running, resume after it.  [skip] counts the characters of the current
    occurrence still to pass. *)
Fixpoint replace_from (old new : string) (skip : nat) (s : string) : string :=
  match s with
  | EmptyString => EmptyString
  | String c s' =>
      match skip with
      | S n => replace_from old new n s'
      | O =>
          if String.prefix old s
          then new +:+ replace_from old new (String.length old - 1) s'
          else String c (replace_from old new 0 s')
      end
  end.

Definition replace (s old new : string) : string := replace_from old new 0 s.

(** [old in s] *)
Definition contains (s old : string) : Prop :=
  exists before after, s = before +:+ old +:+ after.

End PyStr.

Module Listener.
Import Models Runtime WebsocketServer.

(** [cache.py], [publish_match_result]: [f"match_updates_{user_id}"]. *)
Definition channel_of (user_id : string) : string :=
  "match_updates_" +:+ user_id.

(** A message of the pattern subscription; [msg_data] is [json.loads(data)],
    [None] when it raises [JSONDecodeError]. *)
Record PubSubMessage : Type := mkPubSubMessage {
  msg_type : string;
  msg_channel : string;
  msg_data : option MatchResult
}.

(** The message that the subscription yields for a published result. *)
Definition message_of (user_id : string) (result : MatchResult)
    : PubSubMessage :=
  mkPubSubMessage "pmessage" (channel_of user_id) (Some result).

(** [channel.replace("match_updates_", "")] *)
Definition user_of_channel (channel : string) : string :=
  PyStr.replace channel "match_updates_" "".

(** The body of [async for message in redis_pubsub.listen()] in
    [redis_listener]. *)
Definition on_message (sio : SocketIO) (message : PubSubMessage)
    : St Gateway unit :=
  if decide (msg_type message = "pmessage") then
    let user_id := user_of_channel (msg_channel message) in
    match msg_data message with
    | Some match_result => broadcast_to_user sio user_id match_result
    | None => mret tt
    end
  else mret tt.

End Listener.

Import Listener.

(** A gateway with no connection for [u1] and one for [u2]. *)
Definition gateway_other : Gateway :=
  mkGateway {[ "u2" := {[ "s9" ]} ]} {[ "s9" := "u2" ]} [].

(** A transport on which every call goes through. *)
Definition sio_up : SocketIO := mkSocketIO (fun _ => None) (fun _ => None).

(** A transport on which no session can be opened. *)
Definition sio_no_session : SocketIO :=
  mkSocketIO (fun _ => None) (fun _ => Some (CollaboratorError "session")).

(** A language-model service that answers every call; the moderation
    scores are [scores]. *)
Definition openai_up (scores : float * float * float * float) : OpenAI :=
  mkOpenAI
    (fun bio tags =>
       inr (Json.JStr bio, Json.JArray (Json.JStr <$> tags), Json.JBool false))
    (fun _ => inr [0.1%float; 0.2%float])
    (fun _ _ _ _ => inr (lit "Welcome!")) (fun _ => inr scores).

(** A cache whose publication fails. *)
Definition cache_no_publish : CacheManager :=
  mkCacheManager None (Some (CollaboratorError "redis")).



(** Three communities of one locality, two of them with the same member
    count, to all of which the similarity search gives the score 0.8. *)
Definition tied_communities : list Dict :=
  [ mkDict "A" (lit "A") "Tech" None 10 0;
    mkDict "B" (lit "B") "Tech" None 500 0;
    mkDict "C" (lit "C") "Tech" None 500 0 ].

Definition hits_tied : list Hit :=
  [ mkHit "A" 0.8; mkHit "C" 0.8; mkHit "B" 0.8 ].

Definition db_tied : DatabaseManager :=
  mkDatabaseManager (fun _ _ _ => inr tied_communities)
    (fun _ _ _ => inr hits_tied) (fun _ => inr ∅)
    (fun _ => inr popular_example) (fun _ _ => inr []) None.

(** A candidate of category Tech with [members] members, at score 0.8. *)
Definition tied (id : string) (members : Z) : Dict :=
  mkDict id (lit id) "Tech" (Some 0.8%float) members 0.

Definition tied_output : list Dict :=
  [ tied "A" 10; tied "C" 500; tied "B" 500 ].

(** A similarity-search result that is not in the order of its scores. *)
Definition hits_unsorted : list Hit := [ mkHit "B" 0.92; mkHit "A" 0.95 ].

Definition unsorted_output : list Dict :=
  [ cand "B" "Tech" 0.92; cand "A" "Tech" 0.95 ].

(** Two popular communities with the same member count, in the order of
    [ORDER BY c.member_count DESC, ca.message_count DESC]. *)
Definition popular_by_activity : list Dict :=
  [ mkDict "P2" (lit "Popular two") "Music" None 900 12;
    mkDict "P1" (lit "Popular one") "General" None 900 7 ].

(** A data store whose locality filter finds nothing and whose popular
    list is [popular_by_activity]. *)
Definition db_popular_by_activity : DatabaseManager :=
  mkDatabaseManager (fun _ _ _ => inr []) (fun _ _ _ => inr [])
    (fun _ => inr ∅) (fun _ => inr popular_by_activity) (fun _ _ => inr [])
    None.

(** * Properties *)

(** ** The diversity filter *)

Section Diversity.

Lemma dom_Counter_from (keys : list string) (acc : gmap string nat) :
  dom (foldl (fun m k => <[k := S (default 0%nat (m !! k))]> m) acc keys)
  = dom acc ∪ list_to_set keys.
Proof.
  revert acc. induction keys as [|k keys IH]; intros acc; simpl.
  - set_solver.
  - rewrite IH, dom_insert_L. set_solver.
Qed.

Lemma size_Counter (keys : list string) :
  size (Counter keys) = size (list_to_set keys : gset string).
Proof.
  unfold Counter. rewrite <- size_dom, dom_Counter_from, dom_empty_L.
  f_equal. set_solver.
Qed.

(** [len(Counter([a, b, c])) == 1] says that the three keys are equal. *)
Lemma Counter_three_one (a b c : string) :
  size (Counter [a; b; c]) = 1%nat <-> a = b /\ b = c.
Proof.
  rewrite size_Counter. split.
  - intros H. split.
    + apply (size_singleton_inv _ a b H); set_solver.
    + apply (size_singleton_inv _ b c H); set_solver.
  - intros [-> ->].
    replace (list_to_set [c; c; c] : gset string) with ({[c]} : gset string)
      by set_solver.
    apply size_singleton.
Qed.

(** The scan passes the entries of the dominant category and moves the
    first other one. *)
Lemma diversity_scan_moves c (pre : list Dict) : forall front d post,
  Forall (fun m : Dict => category m = c) pre ->
  category d ≠ c ->
  diversity_scan c (seq (length front) (length pre + S (length post)))
    (front ++ pre ++ d :: post)
  = py_insert 2 d (front ++ pre ++ post).
Proof.
  induction pre as [|x pre IH]; intros front d post Hpre Hd; simpl.
  - rewrite list_lookup_middle by done.
    rewrite decide_True by done.
    f_equal. apply delete_middle.
  - apply Forall_cons in Hpre as [Hx Hpre].
    rewrite (list_lookup_middle front (pre ++ d :: post) x) by done.
    rewrite decide_False by (intros ?; contradiction).
    specialize (IH (front ++ [x]) d post Hpre Hd).
    rewrite length_app in IH. simpl in IH.
    rewrite Nat.add_1_r in IH. rewrite <- !(assoc_L (++)) in IH.
    exact IH.
Qed.

(** Without an entry of another category among the visited indices the
    scan changes nothing. *)
Lemma diversity_scan_same c indices (matches : list Dict) :
  (forall i (m : Dict), i ∈ indices -> matches !! i = Some m -> category m = c) ->
  diversity_scan c indices matches = matches.
Proof.
  induction indices as [|i indices IH]; intros H; simpl; [done|].
  destruct (matches !! i) as [m|] eqn:Hi; [|done].
  rewrite decide_False.
  - apply IH. intros j m' Hj. apply H. by right.
  - intros Hne. apply Hne. eapply H; [by left|done].
Qed.

(** The first entry of another category splits a list. *)
Lemma first_other_category c (l : list Dict) :
  (exists m : Dict, m ∈ l /\ category m ≠ c) ->
  exists pre d post,
    l = pre ++ d :: post
    /\ Forall (fun m : Dict => category m = c) pre /\ category d ≠ c.
Proof.
  induction l as [|x l IH]; intros (m & Hm & Hc).
  - by apply elem_of_nil in Hm.
  - destruct (decide (category x = c)) as [Hx|Hx].
    + destruct IH as (pre & d & post & -> & Hpre & Hd).
      { apply elem_of_cons in Hm as [->|Hm]; [done|]. by exists m. }
      exists (x :: pre), d, post. split_and!; [done| |done].
      by apply Forall_cons.
    + exists [], x, l. split_and!; [done|constructor|done].
Qed.

Lemma moved_is_permutation (a b x d : Dict) (pre post : list Dict) :
  a :: b :: d :: x :: pre ++ post ≡ₚ a :: b :: x :: pre ++ d :: post.
Proof.
  do 2 f_equiv. rewrite <- Permutation_middle.
  apply perm_swap.
Qed.

End Diversity.

Lemma top_three (matches : list Dict) :
  (4 <= length matches)%nat ->
  exists a b x rest, matches = a :: b :: x :: rest /\ rest <> [].
Proof.
  destruct matches as [|a [|b [|x [|y rest]]]]; simpl; try lia.
  intros _. by exists a, b, x, (y :: rest).
Qed.

Lemma diversity_filter_unfold (a b x : Dict) (rest : list Dict) :
  rest <> [] ->
  _apply_diversity_filter (a :: b :: x :: rest)
  = if decide (category a = category b /\ category b = category x)
    then diversity_scan (category a) (seq 3 (length rest)) (a :: b :: x :: rest)
    else a :: b :: x :: rest.
Proof.
  intros Hrest. unfold _apply_diversity_filter.
  rewrite decide_False by (destruct rest; simpl; [done|lia]).
  cbn [take fmap list_fmap lookup list_lookup length].
  change (category <$> []) with (@nil string).
  replace (S (S (S (length rest))) - 3)%nat with (length rest) by lia.
  destruct (decide (category a = category b /\ category b = category x)) as [H|H].
  - rewrite decide_True by (by apply Counter_three_one). done.
  - rewrite decide_False; [done|]. by rewrite Counter_three_one.
Qed.

(** C1. Diversity injection.  (1) On a list of at least 4 candidates whose
    first three share the category [c] and with a later candidate of
    another category, the filter moves the first such candidate [d] to
    index 2: the list [a; b; x] ++ pre ++ [d] ++ post, with [pre] all of
    category [c], becomes [a; b; d; x] ++ pre ++ post; two of the first
    three results then differ in category, and the result is a permutation
    of the input.  (2) A list of fewer than 4 candidates, or whose first
    three do not share one category, is returned unchanged.  (3) The
    spec's example [A, B, C, D, E] yields [A, B, D, C, E]. *)
Theorem C1_diversity_filter :
  (forall (matches : list Dict) (c : string),
      (4 <= length matches)%nat ->
      (forall m : Dict, m ∈ take 3 matches -> category m = c) ->
      (exists m : Dict, m ∈ drop 3 matches /\ category m ≠ c) ->
      exists (a b x d : Dict) (pre post : list Dict),
        matches = a :: b :: x :: pre ++ d :: post
        /\ Forall (fun m : Dict => category m = c) pre
        /\ category d ≠ c
        /\ _apply_diversity_filter matches = a :: b :: d :: x :: pre ++ post
        /\ (exists m1 m2 : Dict,
               m1 ∈ take 3 (_apply_diversity_filter matches)
               /\ m2 ∈ take 3 (_apply_diversity_filter matches)
               /\ category m1 ≠ category m2)
        /\ _apply_diversity_filter matches ≡ₚ matches)
  /\ (forall matches : list Dict,
         (length matches < 4)%nat
         \/ ~ (exists c, forall m : Dict, m ∈ take 3 matches -> category m = c) ->
         _apply_diversity_filter matches = matches)
  /\ community_id <$> _apply_diversity_filter spec_example
     = ["A"; "B"; "D"; "C"; "E"].
Proof.
  split_and!.
  - intros matches c Hlen Htop Hlater.
    destruct (top_three matches Hlen) as (a & b & x & rest & -> & Hrest).
    simpl in Htop, Hlater.
    assert (category a = c) as Ha by (apply Htop; set_solver).
    assert (category b = c) as Hb by (apply Htop; set_solver).
    assert (category x = c) as Hx by (apply Htop; set_solver).
    destruct (first_other_category c rest Hlater)
      as (pre & d & post & -> & Hpre & Hd).
    assert (_apply_diversity_filter (a :: b :: x :: pre ++ d :: post)
            = a :: b :: d :: x :: pre ++ post) as Heq.
    { rewrite diversity_filter_unfold by done.
      rewrite decide_True by (split; congruence).
      rewrite length_app. simpl. rewrite Ha.
      apply (diversity_scan_moves c pre [a; b; x] d post Hpre Hd). }
    exists a, b, x, d, pre, post. split_and!; try done.
    + rewrite Heq. exists a, d. simpl. split_and!; [set_solver|set_solver|congruence].
    + rewrite Heq. apply moved_is_permutation.
  - intros matches [Hlen|Hmixed].
    + unfold _apply_diversity_filter. by rewrite decide_True.
    + destruct (decide (length matches < 4)%nat) as [Hlen|Hlen].
      { unfold _apply_diversity_filter. by rewrite decide_True. }
      destruct (top_three matches) as (a & b & x & rest & -> & Hrest); [lia|].
      rewrite diversity_filter_unfold by done.
      rewrite decide_False; [done|]. intros [Hab Hbx].
      apply Hmixed. exists (category a). simpl. intros m Hm.
      repeat (apply elem_of_cons in Hm as [->|Hm]); try congruence.
      by apply elem_of_nil in Hm.
  - vm_compute. reflexivity.
Qed.

(** The first part of C1 at the spec's example. *)
Lemma C1_diversity_filter_witness :
  exists (a b x d : Dict) (pre post : list Dict),
    spec_example = a :: b :: x :: pre ++ d :: post
    /\ Forall (fun m : Dict => category m = "Tech") pre
    /\ category d ≠ "Tech"
    /\ _apply_diversity_filter spec_example = a :: b :: d :: x :: pre ++ post
    /\ (exists m1 m2 : Dict,
           m1 ∈ take 3 (_apply_diversity_filter spec_example)
           /\ m2 ∈ take 3 (_apply_diversity_filter spec_example)
           /\ category m1 ≠ category m2)
    /\ _apply_diversity_filter spec_example ≡ₚ spec_example.
Proof.
  apply (proj1 C1_diversity_filter spec_example "Tech").
  - simpl. lia.
  - intros m Hm. simpl in Hm.
    repeat (apply elem_of_cons in Hm as [->|Hm]); try reflexivity.
    by apply elem_of_nil in Hm.
  - exists (cand "D" "Gaming" 0.86). split; [|discriminate].
    simpl. by left.
Defined.

(** ** Order facts on binary64 numbers

    [ltb_spec] and [leb_spec] reduce the primitive comparisons to
    [SFcompare] on the decoded numbers. *)

Section FloatOrder.

Lemma SFcompare_opp (x y : spec_float) (c : comparison) :
  SFcompare x y = Some c -> SFcompare y x = Some (CompOpp c).
Proof.
  destruct x as [sx|sx| |sx mx ex], y as [sy|sy| |sy my ey]; simpl;
    try discriminate;
    try (intros [= <-];
         repeat match goal with s : bool |- _ => destruct s end;
         reflexivity).
  intros [= <-]. f_equal.
  change (Pos.compare_cont Eq ?a ?b) with (Pos.compare a b).
  rewrite (Z.compare_antisym ex ey), (Pos.compare_antisym mx my).
  destruct sx, sy, (ex ?= ey)%Z, (mx ?= my)%positive; reflexivity.
Qed.

Lemma SFcompare_lt_trans (x y z : spec_float) :
  SFcompare x y = Some Lt -> SFcompare y z = Some Lt ->
  SFcompare x z = Some Lt.
Proof.
  destruct x as [sx|sx| |sx mx ex], y as [sy|sy| |sy my ey],
           z as [sz|sz| |sz mz ez];
    simpl; try discriminate;
    repeat match goal with s : bool |- _ => destruct s end;
    try discriminate; try reflexivity.
  all: change (Pos.compare_cont Eq ?a ?b) with (Pos.compare a b).
  all: destruct (Z.compare_spec ex ey), (Z.compare_spec ey ez),
         (Z.compare_spec ex ez);
    try discriminate; try reflexivity; try lia.
  all: destruct (Pos.compare_spec mx my), (Pos.compare_spec my mz),
         (Pos.compare_spec mx mz);
    simpl; try discriminate; try reflexivity; try lia.
Qed.

Lemma ltb_inv (a b : float) :
  PrimFloat.ltb a b = true -> SFcompare (Prim2SF a) (Prim2SF b) = Some Lt.
Proof.
  rewrite ltb_spec. unfold SFltb.
  destruct (SFcompare (Prim2SF a) (Prim2SF b)) as [[]|]; congruence.
Qed.

(** [a <= b] excludes [b < a]. *)
Lemma le_not_gt (a b : float) :
  PyFloat.le a b = true -> PyFloat.gt a b = false.
Proof.
  unfold PyFloat.le, PyFloat.gt. rewrite leb_spec, ltb_spec.
  unfold SFleb, SFltb.
  destruct (SFcompare (Prim2SF a) (Prim2SF b)) as [c|] eqn:Hc; [|done].
  rewrite (SFcompare_opp _ _ _ Hc). by destruct c.
Qed.

(** [a < b] excludes [a >= b]. *)
Lemma lt_not_ge (a b : float) :
  PyFloat.lt a b = true -> PyFloat.ge a b = false.
Proof.
  unfold PyFloat.lt, PyFloat.ge. intros H%ltb_inv.
  rewrite leb_spec. unfold SFleb.
  by rewrite (SFcompare_opp _ _ _ H).
Qed.

(** [a < b] and [b <= c] exclude [a > c]. *)
Lemma lt_le_not_gt (a b c : float) :
  PyFloat.lt a b = true -> PyFloat.le b c = true -> PyFloat.gt a c = false.
Proof.
  unfold PyFloat.lt, PyFloat.le, PyFloat.gt. intros Hab%ltb_inv Hbc.
  destruct (PrimFloat.ltb c a) eqn:Hca; [|done].
  apply ltb_inv in Hca.
  pose proof (SFcompare_lt_trans _ _ _ Hca Hab) as Hcb.
  rewrite leb_spec in Hbc. unfold SFleb in Hbc.
  rewrite (SFcompare_opp _ _ _ Hcb) in Hbc. done.
Qed.

End FloatOrder.

(** ** The decision engine *)

(** Unfolds the monad of a handler down to functions on the state. *)
Ltac run_st :=
  unfold mbind, mret, St_bind, St_ret, Runtime.bind, Runtime.ret,
    Runtime.call, Runtime.throw, Runtime.try_except in *.

(** What [_to_community_match] copies from a community dictionary: every
    key, with the score of the dictionary ([0.0] when it has none) or the
    score that the caller gives. *)
Lemma to_community_match_own (m : Dict) :
  shows (_to_community_match m None) m (score m).
Proof. by repeat split. Qed.

Lemma to_community_match_at (m : Dict) (s : float) :
  shows (_to_community_match m (Some s)) m s.
Proof. by repeat split. Qed.

Lemma matches_show_own (ms : list Dict) :
  Forall2 (fun cm m => shows cm m (score m))
    ((fun m => _to_community_match m None) <$> ms) ms.
Proof.
  induction ms as [|m ms IH]; constructor; [apply to_community_match_own|done].
Qed.

Lemma matches_show_at (s : float) (ms : list Dict) :
  Forall2 (fun cm m => shows cm m s)
    ((fun m => _to_community_match m (Some s)) <$> ms) ms.
Proof.
  induction ms as [|m ms IH]; constructor; [apply to_community_match_at|done].
Qed.

Section DecisionEngine.

Variable db : DatabaseManager.
Variable openai : OpenAI.
Variables (task_id user_id : string) (user_bio : pystr).

Local Abbreviation engine :=
  (_apply_decision_engine db openai task_id user_id user_bio).

Lemma engine_empty (w : World) :
  engine [] w = fallback_result db task_id user_id w.
Proof. reflexivity. Qed.

Lemma fallback_result_ok (w : World) (popular : list Dict) :
  get_popular_communities db 5 = inr popular ->
  fallback_result db task_id user_id w
  = (w, inr (popular_result task_id user_id popular)).
Proof. intros H. unfold fallback_result. run_st. by rewrite H. Qed.

Lemma fallback_result_raises (w : World) (e : exn) :
  get_popular_communities db 5 = inl e ->
  fallback_result db task_id user_id w = (w, inl e).
Proof. intros H. unfold fallback_result. run_st. by rewrite H. Qed.

Lemma engine_explorer (w : World) (top : Dict) (rest : list Dict) (s : float) :
  match_score top = Some s ->
  PyFloat.ge s 0.55 = true -> PyFloat.le s 0.87 = true ->
  engine (top :: rest) w
  = (w, inr (explorer_result task_id user_id (top :: rest))).
Proof.
  intros Hs Hge Hle. unfold _apply_decision_engine.
  rewrite Hs, (le_not_gt _ _ Hle), Hge. reflexivity.
Qed.

Lemma engine_fallback (w : World) (top : Dict) (rest : list Dict) (s : float) :
  match_score top = Some s ->
  PyFloat.lt s 0.55 = true ->
  engine (top :: rest) w = fallback_result db task_id user_id w.
Proof.
  intros Hs Hlt. unfold _apply_decision_engine.
  rewrite Hs, (lt_not_ge _ _ Hlt).
  rewrite (lt_le_not_gt s 0.55 0.87 Hlt) by reflexivity.
  reflexivity.
Qed.

(** The outcome of the Soulmate branch, call by call. *)
Lemma engine_soulmate (w : World) (top : Dict) (rest : list Dict) (s : float) :
  match_score top = Some s ->
  PyFloat.gt s 0.87 = true ->
  let cid := community_id top in
  let soulmate := soulmate_result task_id user_id top in
  engine (top :: rest) w
  = match insert_fails db with
    | Some e => (w, inl e)
    | None =>
        if decide ((user_id, cid) ∈ community_members w)
        then (w, inr (soulmate false))
        else
          let w' := mkWorld ({[ (user_id, cid) ]} ∪ community_members w)
                      (user_vectors w) (published w) (task_updates w) in
          match get_community_members_for_intro db cid 5 with
          | inl e => (w', inl e)
          | inr active_members =>
              match get_community_details db [cid] with
              | inl e => (w', inl e)
              | inr details =>
                  let toxicity :=
                    (generate_ai_introduction openai user_bio
                       (community_name top)
                       (default [] (description <$> details !! cid))
                       active_members).2 in
                  (w', inr (soulmate (PyFloat.lt toxicity 0.75)))
              end
          end
    end.
Proof.
  intros Hs Hgt cid soulmate. unfold _apply_decision_engine.
  rewrite Hs, Hgt. unfold auto_join_community. run_st. fold cid.
  destruct (insert_fails db); [done|].
  destruct (decide ((user_id, cid) ∈ community_members w)); [done|].
  destruct (get_community_members_for_intro db cid 5) as [e|members]; [done|].
  destruct (get_community_details db [cid]) as [e|details]; [done|].
  destruct (generate_ai_introduction _ _ _ _ _) as [[intro mentioned] tox].
  simpl. by destruct (PyFloat.lt tox 0.75).
Qed.

End DecisionEngine.

(** C2. Tier classification.  With top score [s] the decision engine
    returns: for [s > 0.87] a Soulmate result whenever the data store
    answers its calls, and in no case a result of another tier; for
    [0.55 <= s <= 0.87] the Explorer result, whose matches are the first
    [min 5 (length matches)] candidates, entry by entry with the
    identifier, name, category, score, member count and activity of the
    candidate, and which requests no profile update; for [s < 0.55], and
    for the empty list, the Fallback result, whose matches are the popular
    communities, each at score 0.0, and which requests a profile update.
    So a top score of exactly 0.87 or exactly 0.55 is Explorer, and
    0.549999 is Fallback. *)
Theorem C2_decision_tiers (db : DatabaseManager) (openai : OpenAI)
    (task_id user_id : string) (user_bio : pystr) (w : World) :
  let engine := _apply_decision_engine db openai task_id user_id user_bio in
  (forall (top : Dict) (rest : list Dict) (s : float),
      match_score top = Some s ->
      (PyFloat.gt s 0.87 = true ->
         (forall w' r, engine (top :: rest) w = (w', inr r) -> tier r = SOULMATE)
         /\ (insert_fails db = None ->
             returned (get_community_members_for_intro db (community_id top) 5) ->
             returned (get_community_details db [community_id top]) ->
             exists w' r, engine (top :: rest) w = (w', inr r)
                          /\ tier r = SOULMATE))
      /\ (PyFloat.ge s 0.55 = true -> PyFloat.le s 0.87 = true ->
          let r := explorer_result task_id user_id (top :: rest) in
          engine (top :: rest) w = (w, inr r)
          /\ tier r = EXPLORER
          /\ Forall2 (fun cm m => shows cm m (score m)) (matches r)
               (take 5 (top :: rest))
          /\ (exists cm, head (matches r) = Some cm /\ shows cm top s)
          /\ length (matches r) = (5 `min` length (top :: rest))%nat
          /\ requires_profile_update r = false)
      /\ (PyFloat.lt s 0.55 = true ->
          forall popular, get_popular_communities db 5 = inr popular ->
            let r := popular_result task_id user_id popular in
            engine (top :: rest) w = (w, inr r)
            /\ tier r = FALLBACK
            /\ Forall2 (fun cm c => shows cm c 0.0%float) (matches r) popular
            /\ requires_profile_update r = true))
  /\ (forall popular, get_popular_communities db 5 = inr popular ->
        let r := popular_result task_id user_id popular in
        engine [] w = (w, inr r)
        /\ tier r = FALLBACK
        /\ Forall2 (fun cm c => shows cm c 0.0%float) (matches r) popular
        /\ requires_profile_update r = true)
  /\ (forall (top : Dict) (rest : list Dict),
         match_score top = Some 0.87%float \/ match_score top = Some 0.55%float ->
         engine (top :: rest) w
         = (w, inr (explorer_result task_id user_id (top :: rest))))
  /\ (forall (top : Dict) (rest : list Dict) popular,
         match_score top = Some 0.549999%float ->
         get_popular_communities db 5 = inr popular ->
         engine (top :: rest) w
         = (w, inr (popular_result task_id user_id popular))).
Proof.
  intros engine. subst engine. split_and!.
  - intros top rest s Hs. split_and!.
    + intros Hgt. split.
      * intros w' r. rewrite (engine_soulmate _ _ _ _ _ _ _ _ _ Hs Hgt).
        repeat case_match; intros [= <- <-]; reflexivity.
      * intros Hins [members Hmem] [details Hdet].
        rewrite (engine_soulmate _ _ _ _ _ _ _ _ _ Hs Hgt), Hins, Hmem, Hdet.
        case_decide; by eexists _, _.
    + intros Hge Hle r. subst r. split_and!.
      * by apply engine_explorer with s.
      * reflexivity.
      * apply matches_show_own.
      * eexists. split; [reflexivity|].
        pose proof (to_community_match_own top) as Hown.
        unfold score in Hown. by rewrite Hs in Hown.
      * unfold explorer_result. cbn [matches].
        rewrite length_fmap, length_take. lia.
      * reflexivity.
    + intros Hlt popular Hpop r. subst r. split_and!.
      * rewrite (engine_fallback _ _ _ _ _ _ _ _ _ Hs Hlt).
        by apply fallback_result_ok.
      * reflexivity.
      * apply matches_show_at.
      * reflexivity.
  - intros popular Hpop r. subst r. split_and!.
    + rewrite engine_empty. by apply fallback_result_ok.
    + reflexivity.
    + apply matches_show_at.
    + reflexivity.
  - intros top rest [Hs|Hs]; by apply engine_explorer with (s := _) (1 := Hs).
  - intros top rest popular Hs Hpop.
    rewrite (engine_fallback _ _ _ _ _ _ _ _ _ Hs) by reflexivity.
    by apply fallback_result_ok.
Qed.

(** C2 at concrete inputs: top scores 0.70, 0.90 and 0.40. *)
Lemma C2_decision_tiers_witness :
  (exists r,
      _apply_decision_engine (db_example []) openai_embed_only "t1" "u1" []
        (cand "A" "Tech" 0.70 :: []) world0 = (world0, inr r)
      /\ tier r = EXPLORER
      /\ matches r = [mkCommunityMatch "A" (lit "A") "Tech" 0.70 0 0])
  /\ (exists w' r,
         _apply_decision_engine (db_example []) openai_embed_only "t1" "u1" []
           (cand "A" "Tech" 0.90 :: []) world0 = (w', inr r)
         /\ tier r = SOULMATE)
  /\ (exists r,
         _apply_decision_engine (db_example []) openai_embed_only "t1" "u1" []
           (cand "A" "Tech" 0.40 :: []) world0 = (world0, inr r)
         /\ tier r = FALLBACK
         /\ matches r
            = [mkCommunityMatch "P1" (lit "Popular one") "General" 0.0 900 12;
               mkCommunityMatch "P2" (lit "Popular two") "Music" 0.0 800 7]).
Proof.
  pose proof (C2_decision_tiers (db_example []) openai_embed_only "t1" "u1" []
                world0) as (H & _).
  split_and!.
  - destruct (H (cand "A" "Tech" 0.70) [] 0.70%float eq_refl) as (_ & Hx & _).
    destruct (Hx eq_refl eq_refl) as (Hrun & Htier & _).
    eexists. split_and!; [exact Hrun|exact Htier|reflexivity].
  - destruct (H (cand "A" "Tech" 0.90) [] 0.90%float eq_refl) as (Hs & _).
    apply Hs; [reflexivity|reflexivity|by eexists|by eexists].
  - destruct (H (cand "A" "Tech" 0.40) [] 0.40%float eq_refl) as (_ & _ & Hf).
    destruct (Hf eq_refl popular_example eq_refl) as (Hrun & Htier & _).
    eexists. split_and!; [exact Hrun|exact Htier|reflexivity].
Defined.

(** ** The Soulmate branch *)

(** A second auto-join of the same pair reports "already member" and
    leaves the table as it is. *)
Lemma auto_join_idempotent (db : DatabaseManager) (user_id cid : string)
    (w w1 : World) (joined : bool) :
  auto_join_community db user_id cid w = (w1, inr joined) ->
  (user_id, cid) ∈ community_members w1
  /\ auto_join_community db user_id cid w1 = (w1, inr false).
Proof.
  unfold auto_join_community.
  destruct (insert_fails db); [done|].
  destruct (decide ((user_id, cid) ∈ community_members w)) as [Hin|Hout];
    intros [= <- <-].
  - by rewrite decide_True.
  - simpl. split; [set_solver|]. rewrite decide_True by set_solver. done.
Qed.

(** C5. Soulmate outcome.  With a top score above 0.87, the engine attempts
    the auto-join: unless the insert itself fails, the pair is in the
    membership table afterwards, whatever the introduction step does, no
    membership is ever removed, and a repeated auto-join is a no-op.  Every
    result returned has tier Soulmate, holds one match, which shows the
    top candidate (its identifier, name, category, member count and
    activity) at the top score, and names its community as auto-joined;
    [ai_intro_generated] is true only if the auto-join reported success
    and the toxicity score of the introduction is below 0.75. *)
Theorem C5_soulmate_outcome (db : DatabaseManager) (openai : OpenAI)
    (task_id user_id : string) (user_bio : pystr) (w : World)
    (top : Dict) (rest : list Dict) (s : float) :
  match_score top = Some s ->
  PyFloat.gt s 0.87 = true ->
  let cid := community_id top in
  let out := _apply_decision_engine db openai task_id user_id user_bio
               (top :: rest) w in
  (insert_fails db = None -> (user_id, cid) ∈ community_members out.1)
  /\ community_members w ⊆ community_members out.1
  /\ (forall w1 joined,
         auto_join_community db user_id cid w = (w1, inr joined) ->
         auto_join_community db user_id cid w1 = (w1, inr false))
  /\ (forall r, out.2 = inr r ->
        tier r = SOULMATE
        /\ matches r = [_to_community_match top None]
        /\ (exists cm, matches r = [cm] /\ shows cm top s)
        /\ auto_joined_community r = Some cid
        /\ (ai_intro_generated r = true ->
            (auto_join_community db user_id cid w).2 = inr true
            /\ exists active_members details,
                get_community_members_for_intro db cid 5 = inr active_members
                /\ get_community_details db [cid] = inr details
                /\ PyFloat.lt
                     (generate_ai_introduction openai user_bio
                        (community_name top)
                        (default [] (description <$> details !! cid))
                        active_members).2 0.75 = true)).
Proof.
  intros Hs Hgt cid out. subst out.
  rewrite (engine_soulmate _ _ _ _ _ _ _ _ _ Hs Hgt). fold cid.
  split_and!.
  - intros ->. case_decide; [done|].
    repeat case_match; simpl; set_solver.
  - repeat case_match; simpl; set_solver.
  - intros w1 joined H. by apply (auto_join_idempotent _ _ _ _ _ _ H).
  - assert (exists cm, [_to_community_match top None] = [cm]
                       /\ shows cm top s) as Htop.
    { eexists. split; [reflexivity|].
      pose proof (to_community_match_own top) as Hown.
      unfold score in Hown. by rewrite Hs in Hown. }
    intros r. unfold auto_join_community.
    destruct (insert_fails db); [done|].
    case_decide; simpl.
    { intros [= <-]. by split_and!. }
    destruct (get_community_members_for_intro db cid 5) as [|members]; [done|].
    destruct (get_community_details db [cid]) as [|details]; [done|].
    simpl. intros [= <-]. split_and!; try done.
    simpl. intros Htox. split; [done|]. by exists members, details.
Qed.

(** C5 at a top score of 0.90 for a user who is not yet a member. *)
Lemma C5_soulmate_outcome_witness :
  let out := _apply_decision_engine (db_example []) openai_no_moderation
               "t1" "u1" [] (cand "A" "Tech" 0.90 :: []) world0 in
  ("u1", "A") ∈ community_members out.1
  /\ out.2
     = inr (mkMatchResult "t1" "u1" SOULMATE
              [mkCommunityMatch "A" (lit "A") "Tech" 0.90 0 0]
              (Some "A") true false 0).
Proof.
  pose proof (C5_soulmate_outcome (db_example []) openai_no_moderation
                "t1" "u1" [] world0 (cand "A" "Tech" 0.90) [] 0.90%float
                eq_refl eq_refl) as (Hjoin & _).
  split; [by apply Hjoin|]. vm_compute. reflexivity.
Defined.

(** ** The toxicity gate when a collaborator is down *)

Lemma check_toxicity_outage (openai : OpenAI) (text : pystr) (e : exn) :
  moderations_create openai text = inl e ->
  _check_toxicity openai text = 0.0%float.
Proof. intros H. unfold _check_toxicity. by rewrite H. Qed.

Lemma introduction_outage (openai : OpenAI) (user_bio name desc : pystr)
    (active_members : list Member) (e : exn) :
  intro_completion openai user_bio name desc
    (match active_members with m :: _ => Some (username m) | [] => None end)
  = inl e ->
  generate_ai_introduction openai user_bio name desc active_members
  = (lit "Welcome to " ++ name ++ lit "! We're excited to have you here.",
     None, 0.0%float).
Proof. intros H. unfold generate_ai_introduction. by rewrite H. Qed.

(** During a moderation outage every introduction gets the score 0.0. *)
Lemma introduction_toxicity_outage (openai : OpenAI)
    (user_bio name desc : pystr) (active_members : list Member) :
  (forall text, exists e, moderations_create openai text = inl e) ->
  (generate_ai_introduction openai user_bio name desc active_members).2
  = 0.0%float.
Proof.
  intros Hdown. unfold generate_ai_introduction.
  destruct (intro_completion _ _ _ _ _) as [e|text]; [done|].
  simpl. destruct (Hdown text) as [e He]. by apply check_toxicity_outage with e.
Qed.

(** C10, as stated, fails: with the moderation endpoint down, a Soulmate
    result for a user who already belongs to the community is returned
    with [ai_intro_generated = false]. *)
Lemma C10_outage_already_member :
  (forall text, exists e, moderations_create openai_no_moderation text = inl e)
  /\ PyFloat.gt 0.90 0.87 = true
  /\ _apply_decision_engine (db_example []) openai_no_moderation "t1" "u1" []
       (cand "A" "Tech" 0.90 :: []) world_member
     = (world_member,
        inr (soulmate_result "t1" "u1" (cand "A" "Tech" 0.90) false))
  /\ ai_intro_generated (soulmate_result "t1" "u1" (cand "A" "Tech" 0.90) false)
     ≠ true.
Proof.
  split_and!.
  - intros text. by exists unavailable.
  - reflexivity.
  - vm_compute. reflexivity.
  - discriminate.
Qed.

(** C10, amended.  A failed moderation call gives the toxicity score 0.0,
    and a failed introduction call gives the fallback introduction with
    toxicity 0.0.  As 0.0 < 0.75, a Soulmate result returned while the
    moderation endpoint is down has [ai_intro_generated = true] whenever
    the auto-join reported success.  Whenever the auto-join reports that
    the user already is a member, no introduction is requested and
    [ai_intro_generated] is false. *)
Theorem C10_toxicity_gate_default (db : DatabaseManager) (openai : OpenAI)
    (task_id user_id : string) (user_bio : pystr) (w : World)
    (top : Dict) (rest : list Dict) (s : float) :
  (forall text e, moderations_create openai text = inl e ->
                  _check_toxicity openai text = 0.0%float)
  /\ (forall name desc active_members e,
         intro_completion openai user_bio name desc
           (match active_members with
            | m :: _ => Some (username m)
            | [] => None
            end) = inl e ->
         generate_ai_introduction openai user_bio name desc active_members
         = (lit "Welcome to " ++ name ++ lit "! We're excited to have you here.",
            None, 0.0%float))
  /\ PyFloat.lt 0.0 0.75 = true
  /\ (match_score top = Some s ->
      PyFloat.gt s 0.87 = true ->
      (forall text, exists e, moderations_create openai text = inl e) ->
      forall w' r,
        _apply_decision_engine db openai task_id user_id user_bio
          (top :: rest) w = (w', inr r) ->
        (auto_join_community db user_id (community_id top) w).2 = inr true ->
        ai_intro_generated r = true)
  /\ (match_score top = Some s ->
      PyFloat.gt s 0.87 = true ->
      forall w' r,
        _apply_decision_engine db openai task_id user_id user_bio
          (top :: rest) w = (w', inr r) ->
        (auto_join_community db user_id (community_id top) w).2 = inr false ->
        w' = w /\ ai_intro_generated r = false).
Proof.
  split_and!.
  - intros text e. apply check_toxicity_outage.
  - intros name desc members e. apply introduction_outage.
  - reflexivity.
  - intros Hs Hgt Hdown w' r.
    rewrite (engine_soulmate _ _ _ _ _ _ _ _ _ Hs Hgt).
    unfold auto_join_community.
    destruct (insert_fails db); [done|].
    case_decide; [by intros _ [=]|].
    destruct (get_community_members_for_intro _ _ _) as [|members]; [done|].
    destruct (get_community_details _ _) as [|details]; [done|].
    rewrite introduction_toxicity_outage by done.
    by intros [= <- <-] _.
  - intros Hs Hgt w' r.
    rewrite (engine_soulmate _ _ _ _ _ _ _ _ _ Hs Hgt).
    unfold auto_join_community.
    destruct (insert_fails db); [done|].
    case_decide; [by intros [= <- <-] _|].
    by intros _ [=].
Qed.

(** C10, amended, for a new member while the moderation endpoint is down. *)
Lemma C10_toxicity_gate_default_witness :
  exists w' r,
    _apply_decision_engine (db_example []) openai_no_moderation "t1" "u1" []
      (cand "A" "Tech" 0.90 :: []) world0 = (w', inr r)
    /\ ai_intro_generated r = true.
Proof.
  pose proof (C10_toxicity_gate_default (db_example []) openai_no_moderation
                "t1" "u1" [] world0 (cand "A" "Tech" 0.90) [] 0.90%float)
    as (_ & _ & _ & Hgate & _).
  eexists _, _. split; [reflexivity|].
  eapply (Hgate eq_refl eq_refl); [|reflexivity|reflexivity].
  intros text. by exists unavailable.
Defined.

(** ** The hybrid matcher *)

Section HybridMatcher.

Lemma split_first_other (c : string) (l : list Dict) :
  Forall (fun m : Dict => category m = c) l
  \/ exists pre d post,
      l = pre ++ d :: post
      /\ Forall (fun m : Dict => category m = c) pre /\ category d ≠ c.
Proof.
  induction l as [|x l [IH|(pre & d & post & -> & Hpre & Hd)]].
  - left. constructor.
  - destruct (decide (category x = c)) as [Hx|Hx].
    + left. by constructor.
    + right. exists [], x, l. split_and!; [done|constructor|done].
  - right. destruct (decide (category x = c)) as [Hx|Hx].
    + exists (x :: pre), d, post. split_and!; [done| |done]. by constructor.
    + exists [], x, (pre ++ d :: post). split_and!; [done|constructor|done].
Qed.

(** The filter either returns its input or moves one entry to index 2. *)
Lemma diversity_filter_cases (matches : list Dict) :
  _apply_diversity_filter matches = matches
  \/ exists a b x d pre post,
      matches = a :: b :: x :: pre ++ d :: post
      /\ _apply_diversity_filter matches = a :: b :: d :: x :: pre ++ post.
Proof.
  destruct (decide (length matches < 4)%nat) as [Hlen|Hlen].
  { left. unfold _apply_diversity_filter. by rewrite decide_True. }
  destruct (top_three matches) as (a & b & x & rest & -> & Hrest); [lia|].
  rewrite diversity_filter_unfold by done.
  case_decide as Hsame; [|by left]. destruct Hsame as [Hab Hbx].
  destruct (split_first_other (category a) rest)
    as [Hall|(pre & d & post & -> & Hpre & Hd)].
  - left. apply diversity_scan_same. intros i m Hi Hm.
    apply elem_of_seq in Hi.
    destruct i as [|[|[|i]]]; try lia. simpl in Hm.
    rewrite Forall_lookup in Hall. by apply (Hall i).
  - right. exists a, b, x, d, pre, post. split; [done|].
    rewrite length_app. simpl.
    apply (diversity_scan_moves (category a) pre [a; b; x] d post Hpre Hd).
Qed.

Lemma diversity_filter_permutation (matches : list Dict) :
  _apply_diversity_filter matches ≡ₚ matches.
Proof.
  destruct (diversity_filter_cases matches)
    as [->|(a & b & x & d & pre & post & -> & ->)]; [done|].
  apply moved_is_permutation.
Qed.

Lemma community_map_from (filtered : list Dict) (acc : gmap string Dict)
    (k : string) (c : Dict) :
  foldl (fun m c => <[community_id c := c]> m) acc filtered !! k = Some c ->
  (c ∈ filtered /\ community_id c = k) \/ acc !! k = Some c.
Proof.
  revert acc. induction filtered as [|x l IH]; intros acc; simpl; [by right|].
  intros [[Hc Hk]|H]%IH.
  - left. split; [by right|done].
  - destruct (decide (community_id x = k)) as [<-|Hne].
    + rewrite lookup_insert_eq in H. injection H as ->. left. split; [by left|done].
    + rewrite lookup_insert_ne in H by done. by right.
Qed.

(** An entry of the map is a stage-1 record under its own identifier. *)
Lemma community_map_lookup (filtered : list Dict) (k : string) (c : Dict) :
  community_map_of filtered !! k = Some c ->
  c ∈ filtered /\ community_id c = k.
Proof.
  intros [H|H]%community_map_from; [done|]. by rewrite lookup_empty in H.
Qed.

(** An enriched match is a hit merged onto the map's record for it. *)
Lemma elem_of_enrich (community_map : gmap string Dict) (hits : list Hit)
    (m : Dict) :
  m ∈ enrich community_map hits ->
  exists h c,
    h ∈ hits /\ community_map !! hit_community_id h = Some c
    /\ m = mkDict (hit_community_id h) (community_name c) (category c)
             (Some (hit_match_score h)) (member_count c) (recent_activity c).
Proof.
  induction hits as [|h hits IH]; simpl; [by intros ?%elem_of_nil|].
  destruct (community_map !! hit_community_id h) as [c|] eqn:Hc.
  - intros [->|Hm]%elem_of_cons.
    + exists h, c. split_and!; [by left|done|done].
    + destruct (IH Hm) as (h' & c' & ? & ? & ?).
      exists h', c'. split_and!; [by right|done|done].
  - intros Hm. destruct (IH Hm) as (h' & c' & ? & ? & ?).
    exists h', c'. split_and!; [by right|done|done].
Qed.

(** The merge keeps the order of the similarity search. *)
Lemma enrich_sorted (community_map : gmap string Dict) (hits : list Hit) :
  StronglySorted hit_desc hits ->
  StronglySorted score_desc (enrich community_map hits).
Proof.
  induction 1 as [|h hits Hsorted IH Hall]; simpl; [constructor|].
  destruct (community_map !! hit_community_id h) as [c|]; [|done].
  constructor; [done|].
  apply Forall_forall. intros m (h' & c' & Hh' & _ & ->)%elem_of_enrich.
  rewrite Forall_forall in Hall. exact (Hall h' Hh').
Qed.

Variable db : DatabaseManager.

Lemma hybrid_nonempty (v : list float) (city tz : string) (w : World)
    (filtered : list Dict) (hits : list Hit) :
  filter_communities_by_location db city tz 1000 = inr filtered ->
  filtered ≠ [] ->
  vector_search db v (community_id <$> filtered) 20 = inr hits ->
  _hybrid_matching_algorithm db v city tz w
  = (w, inr (_apply_diversity_filter
               (enrich (community_map_of filtered) hits))).
Proof.
  intros Hf Hne Hv. unfold _hybrid_matching_algorithm. run_st.
  rewrite Hf. destruct filtered; [done|]. by rewrite Hv.
Qed.

Lemma hybrid_empty (v : list float) (city tz : string) (w : World) :
  filter_communities_by_location db city tz 1000 = inr [] ->
  _hybrid_matching_algorithm db v city tz w
  = (w, get_popular_communities db 5).
Proof.
  intros Hf. unfold _hybrid_matching_algorithm. run_st. by rewrite Hf.
Qed.

(** The matcher reads the world and leaves it as it is. *)
Lemma hybrid_world (v : list float) (city tz : string) (w : World) :
  (_hybrid_matching_algorithm db v city tz w).1 = w.
Proof.
  unfold _hybrid_matching_algorithm. run_st.
  destruct (filter_communities_by_location db city tz 1000) as [|[|c l]];
    [done|done|].
  by destruct (vector_search db v _ 20).
Qed.

End HybridMatcher.

Lemma community_map_dom_from (filtered : list Dict) (acc : gmap string Dict) :
  dom (foldl (fun m c => <[community_id c := c]> m) acc filtered)
  = dom acc ∪ list_to_set (community_id <$> filtered).
Proof.
  revert acc. induction filtered as [|x l IH]; intros acc; simpl.
  - set_solver.
  - rewrite IH, dom_insert_L. set_solver.
Qed.

(** Every stage-1 identifier is a key of the map. *)
Lemma community_map_covers (filtered : list Dict) (k : string) :
  k ∈ community_id <$> filtered -> is_Some (community_map_of filtered !! k).
Proof.
  intros Hk. apply elem_of_dom. unfold community_map_of.
  rewrite community_map_dom_from. set_solver.
Qed.

(** A hit with a record in the map is merged, not dropped. *)
Lemma enrich_keeps (community_map : gmap string Dict) (hits : list Hit)
    (h : Hit) :
  h ∈ hits -> is_Some (community_map !! hit_community_id h) ->
  exists m, m ∈ enrich community_map hits
            /\ community_id m = hit_community_id h
            /\ match_score m = Some (hit_match_score h).
Proof.
  intros Hh [c Hc]. induction hits as [|h' hits IH]; [by apply elem_of_nil in Hh|].
  simpl. apply elem_of_cons in Hh as [<-|Hh].
  - rewrite Hc. eexists. split; [by left|done].
  - destruct (IH Hh) as (m & Hm & ?).
    exists m. split; [|done]. case_match; [by right|done].
Qed.

(** C9. Stale hits are dropped.  When the locality filter finds
    communities, every entry of the matcher's output is a hit of the
    similarity search merged onto the stage-1 record with the same
    identifier: it carries the hit's score and the record's name,
    category, member count and activity.  So no entry has an identifier
    that is absent from the stage-1 output, and a hit with such an
    identifier leaves no entry; a hit that has a stage-1 record is kept. *)
Theorem C9_stale_hits_dropped (db : DatabaseManager) (v : list float)
    (city tz : string) (w : World) (filtered : list Dict) (hits : list Hit) :
  filter_communities_by_location db city tz 1000 = inr filtered ->
  filtered ≠ [] ->
  vector_search db v (community_id <$> filtered) 20 = inr hits ->
  exists out,
    _hybrid_matching_algorithm db v city tz w = (w, inr out)
    /\ (forall m : Dict, m ∈ out ->
          exists h c,
            h ∈ hits /\ c ∈ filtered
            /\ community_id c = hit_community_id h
            /\ m = mkDict (hit_community_id h) (community_name c) (category c)
                     (Some (hit_match_score h)) (member_count c)
                     (recent_activity c))
    /\ (forall m : Dict, m ∈ out -> community_id m ∈ community_id <$> filtered)
    /\ (forall h, h ∈ hits ->
                  hit_community_id h ∉ community_id <$> filtered ->
                  forall m : Dict, m ∈ out -> community_id m ≠ hit_community_id h)
    /\ (forall h, h ∈ hits ->
                  hit_community_id h ∈ community_id <$> filtered ->
                  exists m : Dict,
                    m ∈ out /\ community_id m = hit_community_id h
                    /\ match_score m = Some (hit_match_score h)).
Proof.
  intros Hf Hne Hv. eexists. split; [by apply hybrid_nonempty|].
  assert (forall m : Dict,
             m ∈ _apply_diversity_filter (enrich (community_map_of filtered) hits) ->
             exists h c,
               h ∈ hits /\ c ∈ filtered
               /\ community_id c = hit_community_id h
               /\ m = mkDict (hit_community_id h) (community_name c) (category c)
                        (Some (hit_match_score h)) (member_count c)
                        (recent_activity c)) as Hmerged.
  { intros m Hm. rewrite diversity_filter_permutation in Hm.
    apply elem_of_enrich in Hm as (h & c & Hh & Hc & ->).
    apply community_map_lookup in Hc as [Hc Hid]. by exists h, c. }
  assert (forall m : Dict,
             m ∈ _apply_diversity_filter (enrich (community_map_of filtered) hits) ->
             community_id m ∈ community_id <$> filtered) as Hids.
  { intros m (h & c & _ & Hc & Hid & ->)%Hmerged. simpl. rewrite <- Hid.
    by apply list_elem_of_fmap_2. }
  split_and!; [done|done| |].
  - intros h _ Hstale m Hm Heq. apply Hstale. rewrite <- Heq. by apply Hids.
  - intros h Hh Hid.
    destruct (enrich_keeps (community_map_of filtered) hits h Hh)
      as (m & Hm & ?); [by apply community_map_covers|].
    exists m. split; [|done]. by rewrite diversity_filter_permutation.
Qed.

(** C9 with a stale hit [Z] in front of the example's hits. *)
Lemma C9_stale_hits_dropped_witness :
  exists out,
    _hybrid_matching_algorithm (db_example hits_with_stale) [] "Pune" "IST"
      world0 = (world0, inr out)
    /\ forall m : Dict, m ∈ out -> community_id m ≠ "Z".
Proof.
  destruct (C9_stale_hits_dropped (db_example hits_with_stale) [] "Pune" "IST"
              world0 _ hits_with_stale eq_refl)
    as (out & Heq & _ & _ & Hstale & _); [discriminate|reflexivity|].
  exists out. split; [exact Heq|].
  apply (Hstale (mkHit "Z" 0.99)); [by left|].
  intros H. simpl in H.
  repeat (apply elem_of_cons in H as [H|H]; [discriminate|]).
  by apply elem_of_nil in H.
Defined.

(** ** The order of the matcher's output *)

Lemma StronglySorted_drop_middle {A : Type} (R : relation A) (l1 l2 : list A)
    (d : A) :
  StronglySorted R (l1 ++ d :: l2) -> StronglySorted R (l1 ++ l2).
Proof.
  rewrite !StronglySorted_app, StronglySorted_cons.
  intros (H12 & H1 & _ & H2). split_and!; [|done|done].
  intros x1 x2 Hx1 Hx2. apply H12; [done|by right].
Qed.

(** The merged list is the hits that have a stage-1 record, in the order
    of the search. *)
Lemma enrich_order (community_map : gmap string Dict) (hits : list Hit) :
  (fun m : Dict => (community_id m, match_score m))
    <$> enrich community_map hits
  = (fun h => (hit_community_id h, Some (hit_match_score h)))
    <$> filter (fun h => is_Some (community_map !! hit_community_id h)) hits.
Proof.
  induction hits as [|h hits IH]; [done|]. cbn [enrich].
  destruct (community_map !! hit_community_id h) as [c|] eqn:Hc.
  - rewrite filter_cons_True by (by rewrite Hc).
    rewrite !fmap_cons. by rewrite IH.
  - rewrite filter_cons_False by (rewrite Hc; by intros [? ?]). done.
Qed.

(** C4, as stated, fails, in each of its parts.  Diversity injection
    breaks the order of the scores: on the spec's own example, with the
    hits of the search sorted, the matcher returns [A, B, D, C, E], where
    [D] (0.86) stands before [C] (0.89).  Ties are not broken: three hits
    at score 0.8 come back in the order of the search, [A] (10 members)
    before [C] (500 members) before [B] (500 members).  Nothing is sorted:
    hits that the search returns out of order stay out of order.  And
    when the locality filter finds nothing, the output is the popular
    list as the data store orders it, by member count and then by
    activity, with no score and with [P2] before [P1]. *)
Lemma C4_output_not_sorted :
  (StronglySorted hit_desc hits_example
   /\ _hybrid_matching_algorithm (db_example hits_example) [] "Pune" "IST"
        world0
      = (world0, inr spec_example_output)
   /\ ~ Sorted ranked_before spec_example_output)
  /\ (StronglySorted hit_desc hits_tied
      /\ _hybrid_matching_algorithm db_tied [] "Pune" "IST" world0
         = (world0, inr tied_output)
      /\ ~ ranked_before (tied "A" 10) (tied "C" 500)
      /\ ~ ranked_before (tied "C" 500) (tied "B" 500)
      /\ ~ Sorted ranked_before tied_output)
  /\ (_hybrid_matching_algorithm (db_example hits_unsorted) [] "Pune" "IST"
        world0
      = (world0, inr unsorted_output)
      /\ ~ Sorted score_desc unsorted_output)
  /\ (_hybrid_matching_algorithm db_popular_by_activity [] "Pune" "IST" world0
      = (world0, inr popular_by_activity)
      /\ Forall (fun m : Dict => match_score m = None) popular_by_activity
      /\ ~ Sorted ranked_before popular_by_activity).
Proof.
  assert (forall a b : Dict,
             PyFloat.gt (score a) (score b) = false ->
             (member_count b <? member_count a) = false ->
             (member_count a =? member_count b)
             && String.leb (community_id a) (community_id b) = false ->
             ~ ranked_before a b) as Hnot.
  { intros a b Hgt Hlt Hid [Hr|[_ [Hr|[Hr1 Hr2]]]].
    - congruence.
    - apply Z.ltb_lt in Hr. congruence.
    - apply Z.eqb_eq in Hr1. rewrite Hr1, Hr2 in Hid. done. }
  assert (forall (R : relation Dict) a b l,
             ~ R a b -> ~ Sorted R (a :: b :: l)) as Hhead.
  { intros R a b l Hab Hsorted. apply Sorted_inv in Hsorted as [_ Hrel].
    by apply HdRel_inv in Hrel. }
  split_and!.
  - repeat (apply SSorted_cons;
            [|repeat (apply List.Forall_cons; [vm_compute; reflexivity|]);
              apply List.Forall_nil]).
    apply SSorted_nil.
  - vm_compute. reflexivity.
  - intros Hsorted.
    apply Sorted_inv in Hsorted as [Hsorted _].
    apply Sorted_inv in Hsorted as [Hsorted _].
    revert Hsorted. apply Hhead. apply Hnot; vm_compute; reflexivity.
  - repeat (apply SSorted_cons;
            [|repeat (apply List.Forall_cons; [vm_compute; reflexivity|]);
              apply List.Forall_nil]).
    apply SSorted_nil.
  - vm_compute. reflexivity.
  - apply Hnot; vm_compute; reflexivity.
  - apply Hnot; vm_compute; reflexivity.
  - apply Hhead. apply Hnot; vm_compute; reflexivity.
  - vm_compute. reflexivity.
  - apply Hhead. unfold score_desc. vm_compute. discriminate.
  - vm_compute. reflexivity.
  - repeat constructor.
  - apply Hhead. apply Hnot; vm_compute; reflexivity.
Qed.

(** C4, amended.  The matcher does not sort and breaks no ties: the
    order of its output is the order of its inputs.  When the locality
    filter finds communities, the matcher returns the similarity-search
    hits that have a stage-1 record, in the order in which the search
    returned them, after diversity injection: the output is this merged
    list itself, or the merged list with one entry moved to index 2.  So
    if the search returned its hits by score descending, then the merged
    list is sorted by score descending, and so is the output, or the
    output without the entry injected at index 2.  When the locality
    filter finds nothing, the matcher returns what the popular-communities
    query returns, as it is.  In both cases the output depends only on
    the outputs of the locality filter, of the similarity search and of
    the popular-communities query. *)
Theorem C4_hybrid_order (db : DatabaseManager) (v : list float)
    (city tz : string) (w : World) (filtered : list Dict) :
  filter_communities_by_location db city tz 1000 = inr filtered ->
  (filtered = [] ->
   _hybrid_matching_algorithm db v city tz w
   = (w, get_popular_communities db 5)
   /\ (forall (db' : DatabaseManager) (v' : list float) (w' : World),
         filter_communities_by_location db' city tz 1000 = inr filtered ->
         get_popular_communities db' 5 = get_popular_communities db 5 ->
         _hybrid_matching_algorithm db' v' city tz w'
         = (w', get_popular_communities db 5)))
  /\ (filtered ≠ [] ->
      forall hits : list Hit,
        vector_search db v (community_id <$> filtered) 20 = inr hits ->
        let merged := enrich (community_map_of filtered) hits in
        exists out,
          _hybrid_matching_algorithm db v city tz w = (w, inr out)
          /\ (fun m : Dict => (community_id m, match_score m)) <$> merged
             = (fun h => (hit_community_id h, Some (hit_match_score h)))
               <$> filter
                     (fun h => hit_community_id h ∈ community_id <$> filtered)
                     hits
          /\ (out = merged
              \/ exists a b x d pre post,
                  merged = a :: b :: x :: pre ++ d :: post
                  /\ out = a :: b :: d :: x :: pre ++ post)
          /\ (StronglySorted hit_desc hits ->
              StronglySorted score_desc merged
              /\ (StronglySorted score_desc out
                  \/ StronglySorted score_desc (delete 2%nat out)))
          /\ (forall (db' : DatabaseManager) (v' : list float) (w' : World),
                filter_communities_by_location db' city tz 1000
                = inr filtered ->
                vector_search db' v' (community_id <$> filtered) 20
                = inr hits ->
                _hybrid_matching_algorithm db' v' city tz w' = (w', inr out))).
Proof.
  intros Hf. split.
  { intros ->. split; [by apply hybrid_empty|].
    intros db' v' w' Hf' Hpop. rewrite <- Hpop. by apply hybrid_empty. }
  intros Hne hits Hv merged. eexists. split; [by apply hybrid_nonempty|].
  fold merged. split_and!.
  - unfold merged. rewrite enrich_order. f_equal.
    apply list_filter_iff. intros h. split.
    + intros [c [Hc <-]%community_map_lookup]. by apply list_elem_of_fmap_2.
    + apply community_map_covers.
  - destruct (diversity_filter_cases merged)
      as [->|(a & b & x & d & pre & post & Hm & Ho)]; [by left|].
    right. by exists a, b, x, d, pre, post.
  - intros Hsorted.
    pose proof (enrich_sorted (community_map_of filtered) hits Hsorted) as Hm.
    split; [exact Hm|]. fold merged in Hm.
    destruct (diversity_filter_cases merged)
      as [->|(a & b & x & d & pre & post & Hmerged & ->)]; [by left|].
    right. simpl. rewrite Hmerged in Hm.
    apply (StronglySorted_drop_middle _ (a :: b :: x :: pre) post d Hm).
  - intros db' v' w' Hf' Hv'. by apply hybrid_nonempty.
Qed.

(** C4, amended, at the spec's example, where the output without the
    injected entry is sorted by score, and at a locality without
    communities. *)
Lemma C4_hybrid_order_witness :
  (exists out,
      _hybrid_matching_algorithm (db_example hits_example) [] "Pune" "IST"
        world0
      = (world0, inr out)
      /\ StronglySorted score_desc (delete 2%nat out))
  /\ _hybrid_matching_algorithm db_no_locality [] "Pune" "IST" world0
     = (world0, inr popular_example).
Proof.
  split.
  - destruct (C4_hybrid_order (db_example hits_example) [] "Pune" "IST" world0
                _ eq_refl) as [_ Hfound].
    destruct (Hfound ltac:(discriminate) hits_example eq_refl)
      as (out & Heq & _ & _ & _ & _).
    exists out. split; [exact Heq|].
    vm_compute in Heq. injection Heq as <-.
    cbn [delete list_delete].
    repeat (apply SSorted_cons;
            [|repeat (apply List.Forall_cons; [vm_compute; reflexivity|]);
              apply List.Forall_nil]).
    apply SSorted_nil.
  - destruct (C4_hybrid_order db_no_locality [] "Pune" "IST" world0
                _ eq_refl) as [Hnone _].
    destruct (Hnone eq_refl) as [Heq _]. exact Heq.
Defined.

(** ** The local PII scrub *)

Section Scrub.

Variables (isalnum_high isdecimal_high : N -> bool).

(** A quantifier fails when the rest of the pattern fails on every tail of
    the text; [P] is a property of the text that its tails inherit. *)
Lemma repeat_greedy_none (P : pystr -> Prop) (class : N -> bool) (lo : nat)
    (hi : option nat) (k : option N -> pystr -> option pystr) :
  (forall c s, P (c :: s) -> P s) ->
  (forall prev s, P s -> k prev s = None) ->
  forall s count prev,
    P s -> Re.repeat_greedy class lo hi k count prev s = None.
Proof.
  intros Htail Hk. induction s as [|c s IH]; intros count prev Hs; simpl.
  - rewrite Hk by done. by destruct (lo <=? count)%nat.
  - rewrite (IH _ _ (Htail _ _ Hs)), Hk by done.
    by destruct (class c && _), (lo <=? count)%nat.
Qed.

(** Without an ["@"] the e-mail pattern matches nowhere. *)
Lemma email_no_match (prev : option N) (s : pystr) :
  64%N ∉ s -> Re.match_here isalnum_high Re.email_pattern prev s = None.
Proof.
  intros Hs. unfold Re.email_pattern. cbn [Re.match_here].
  destruct (Re.at_boundary isalnum_high prev s); [|done].
  apply (repeat_greedy_none (fun t => 64%N ∉ t)); [| |done].
  - intros c t Ht Hin. apply Ht. by right.
  - intros prev' [|c t] Ht; [done|].
    cbn [Re.one Re.repeat_greedy].
    assert (Re.is_char "@" c = false) as ->; [|done].
    unfold Re.is_char. apply bool_decide_eq_false. intros [= <-].
    apply Ht. by left.
Qed.

(** Without a decimal digit the phone pattern matches nowhere. *)
Lemma phone_no_match (prev : option N) (s : pystr) :
  Forall (fun c => Re.digit_char isdecimal_high c = false) s ->
  Re.match_here isalnum_high (Re.phone_pattern isdecimal_high) prev s = None.
Proof.
  intros Hs. unfold Re.phone_pattern. cbn [Re.match_here].
  destruct (Re.at_boundary isalnum_high prev s); [|done].
  destruct Hs as [|c t Hc Ht]; [done|].
  cbn [Re.exactly Re.repeat_greedy]. by rewrite Hc.
Qed.

(** [re.sub] returns the text itself when the pattern matches nowhere. *)
Lemma sub_from_no_match (P : pystr -> Prop) (p : list Re.atom)
    (repl : pystr) :
  (forall c s, P (c :: s) -> P s) ->
  (forall prev s, P s -> Re.match_here isalnum_high p prev s = None) ->
  forall s prev, P s -> Re.sub_from isalnum_high p repl prev 0 s = s.
Proof.
  intros Htail Hp. induction s as [|c s IH]; intros prev Hs; [done|].
  cbn [Re.sub_from]. rewrite Hp by done. f_equal. apply IH. by eapply Htail.
Qed.

Lemma scrub_unchanged (text : pystr) :
  64%N ∉ text ->
  Forall (fun c => Re.digit_char isdecimal_high c = false) text ->
  _basic_pii_removal isalnum_high isdecimal_high text = text.
Proof.
  intros Hat Hdigit. unfold _basic_pii_removal, Re.sub.
  assert (Re.sub_from isalnum_high Re.email_pattern (lit "[email removed]")
            None 0 text = text) as ->.
  { apply (sub_from_no_match (fun t => 64%N ∉ t)); [| |done].
    - intros c t Ht Hin. apply Ht. by right.
    - intros prev s. apply email_no_match. }
  apply (sub_from_no_match
           (Forall (fun c => Re.digit_char isdecimal_high c = false)));
    [|apply phone_no_match|done].
  intros c s Hcs. by apply Forall_cons in Hcs as [_ ?].
Qed.

End Scrub.

(** ** The task orchestrator *)


Section Orchestrator.

Variables (isalnum_high isdecimal_high : N -> bool).
Variable str_other : Json.value -> pystr.
Variable profile_error : Json.value -> Json.value -> Json.value -> option exn.
Variable db : DatabaseManager.
Variable openai : OpenAI.
Variable cache : CacheManager.
Variables (request_id : string) (elapsed_ms : Z) (user_data : UserData).

Local Abbreviation task :=
  (process_match_task isalnum_high isdecimal_high str_other profile_error
     db openai cache request_id elapsed_ms user_data).
Local Abbreviation sanitized :=
  (sanitize_and_enrich_profile isalnum_high isdecimal_high openai
     (ud_bio user_data) (ud_interest_tags user_data)).
Local Abbreviation embedding :=
  (embedding_step str_other openai sanitized.1.1 sanitized.1.2).

(** The decision engine writes no task state. *)
Lemma engine_task_updates (tid uid : string) (bio : pystr)
    (ms : list Dict) (w : World) :
  task_updates (_apply_decision_engine db openai tid uid bio ms w).1
  = task_updates w.
Proof.
  destruct ms as [|top rest].
  - simpl. unfold fallback_result. run_st.
    by destruct (get_popular_communities db 5).
  - destruct (match_score top) as [s|] eqn:Hs.
    + destruct (PyFloat.gt s 0.87) eqn:Hgt.
      * rewrite (engine_soulmate _ _ _ _ _ _ _ _ _ Hs Hgt).
        repeat case_match; reflexivity.
      * unfold _apply_decision_engine. rewrite Hs, Hgt.
        destruct (PyFloat.ge s 0.55); [done|].
        unfold fallback_result. run_st.
        by destruct (get_popular_communities db 5).
    + unfold _apply_decision_engine. by rewrite Hs.
Qed.

(** The run of a task, step by step. *)
Lemma task_run (w : World) :
  task w
  = match profile_error sanitized.1.1 sanitized.1.2 sanitized.2 with
    | Some e => (logged w [PROCESSING "sanitization"; FAILED e], inl e)
    | None =>
    match embedding with
    | inl e =>
        (logged w [PROCESSING "sanitization"; PROCESSING "vectorization";
                   FAILED e], inl e)
    | inr v =>
        match setex_fails cache with
        | Some e =>
            (logged w [PROCESSING "sanitization"; PROCESSING "vectorization";
                       FAILED e], inl e)
        | None =>
            match _hybrid_matching_algorithm db v (ud_city user_data)
                    (ud_timezone user_data)
                    (world_at_match w (ud_user_id user_data) v) with
            | (w3, inl e) => (logged w3 [FAILED e], inl e)
            | (w3, inr ms) =>
                match _apply_decision_engine db openai request_id
                        (ud_user_id user_data)
                        (Json.py_str str_other sanitized.1.1) ms
                        (logged w3 [PROCESSING "decision_engine"]) with
                | (w5, inl e) => (logged w5 [FAILED e], inl e)
                | (w5, inr r) =>
                    let result := set_processing_time_ms r elapsed_ms in
                    match publish_fails cache with
                    | Some e => (logged w5 [FAILED e], inl e)
                    | None =>
                        (with_published w5 (ud_user_id user_data) result,
                         inr result)
                    end
                end
            end
        end
    end
    end.
Proof.
  unfold process_match_task, embedding_step.
  destruct sanitized as [[bio' tags'] pii] eqn:Hsan. simpl.
  unfold set_user_vector, publish_match_result, update_state,
    new_SanitizedProfile.
  run_st. unfold logged, world_at_match, with_published. simpl.
  destruct (profile_error bio' tags' pii) as [e|]; simpl.
  { by rewrite <- !(assoc_L (++)). }
  destruct (create_embedding_payload str_other bio' tags') as [e|text]; simpl.
  { by rewrite <- !(assoc_L (++)). }
  destruct (generate_embedding openai _) as [e|v]; simpl.
  { by rewrite <- !(assoc_L (++)). }
  destruct (setex_fails cache) as [e|]; simpl.
  { by rewrite <- !(assoc_L (++)). }
  rewrite <- !(assoc_L (++)). simpl.
  destruct (_hybrid_matching_algorithm _ _ _ _ _) as [w3 [e|ms]]; [done|].
  simpl.
  destruct (_apply_decision_engine _ _ _ _ _ _ _) as [w5 [e|r]]; [done|].
  simpl. by destruct (publish_fails cache).
Qed.

End Orchestrator.




(** ** No locality match *)

(** C3.  When the locality filter returns nothing, the matcher skips the
    similarity search and the diversity injection and returns the popular
    communities as they are.  These rows carry no ["match_score"]: unless
    the popular list is empty too, the decision engine raises [KeyError]
    on the top row and the task fails; it does not return the Fallback
    result.  With an empty popular list the Fallback result is returned. *)
Theorem C3_empty_locality (isalnum_high isdecimal_high : N -> bool)
    (str_other : Json.value -> pystr)
    (profile_error : Json.value -> Json.value -> Json.value -> option exn)
    (db : DatabaseManager) (openai : OpenAI) (cache : CacheManager)
    (request_id : string) (elapsed_ms : Z) (user_data : UserData) (w : World)
    (v : list float) (popular : list Dict) :
  let sanitized := sanitize_and_enrich_profile isalnum_high isdecimal_high
                     openai (ud_bio user_data) (ud_interest_tags user_data) in
  let uid := ud_user_id user_data in
  profile_error sanitized.1.1 sanitized.1.2 sanitized.2 = None ->
  embedding_step str_other openai sanitized.1.1 sanitized.1.2 = inr v ->
  setex_fails cache = None ->
  publish_fails cache = None ->
  filter_communities_by_location db (ud_city user_data)
    (ud_timezone user_data) 1000 = inr [] ->
  get_popular_communities db 5 = inr popular ->
  _hybrid_matching_algorithm db v (ud_city user_data) (ud_timezone user_data)
    (world_at_match w uid v)
  = (world_at_match w uid v, inr popular)
  /\ (forall top rest,
         popular = top :: rest -> match_score top = None ->
         process_match_task isalnum_high isdecimal_high str_other
           profile_error db openai cache request_id elapsed_ms user_data w
         = (logged (world_at_match w uid v)
              [PROCESSING "decision_engine"; FAILED (KeyError "match_score")],
            inl (KeyError "match_score")))
  /\ (popular = [] ->
      let result := set_processing_time_ms
                      (popular_result request_id uid []) elapsed_ms in
      process_match_task isalnum_high isdecimal_high str_other
        profile_error db openai cache request_id elapsed_ms user_data w
      = (with_published
           (logged (world_at_match w uid v) [PROCESSING "decision_engine"])
           uid result,
         inr result)).
Proof.
  intros sanitized uid Hprofile He Hc Hp Hf Hpop.
  assert (_hybrid_matching_algorithm db v (ud_city user_data)
            (ud_timezone user_data) (world_at_match w uid v)
          = (world_at_match w uid v, inr popular)) as Hm.
  { rewrite hybrid_empty by done. by rewrite Hpop. }
  split_and!; [done| |].
  - intros top rest -> Htop. rewrite task_run.
    fold sanitized. fold uid. rewrite Hprofile, He, Hc, Hm.
    unfold _apply_decision_engine. rewrite Htop. unfold logged. simpl.
    by rewrite <- !(assoc_L (++)).
  - intros -> result. rewrite task_run.
    fold sanitized. fold uid. rewrite Hprofile, He, Hc, Hm.
    cbn [_apply_decision_engine].
    rewrite (fallback_result_ok _ _ _ _ _ Hpop). by rewrite Hp.
Qed.

(** C3 at a data store whose locality filter finds nothing and whose
    popular list has two rows: the task fails with [KeyError]. *)
Lemma C3_empty_locality_witness :
  process_match_task no_high no_high no_repr accept_profile db_no_locality
    openai_embed_only cache_up "t1" 1500 user_example world0
  = (mkWorld ∅ {[ "u1" := [0.1%float; 0.2%float] ]} []
       [PROCESSING "sanitization"; PROCESSING "vectorization";
        PROCESSING "hybrid_matching"; PROCESSING "decision_engine";
        FAILED (KeyError "match_score")],
     inl (KeyError "match_score")).
Proof.
  destruct (C3_empty_locality no_high no_high no_repr accept_profile
              db_no_locality openai_embed_only cache_up "t1" 1500
              user_example world0 [0.1%float; 0.2%float] popular_example
              eq_refl eq_refl eq_refl eq_refl eq_refl eq_refl)
    as (_ & Hfail & _).
  rewrite (Hfail _ _ eq_refl eq_refl). reflexivity.
Defined.

(** ** The realtime gateway *)

Section Gateway.

Variable sio : SocketIO.

(** One round of the fan-out loop: the attempt is made; if it fails,
    the connection leaves the user's set. *)
Lemma deliver_one (user_id : string) (result : MatchResult) (sid : string)
    (g : Gateway) (conns : gset string) :
  active_connections g !! user_id = Some conns ->
  try_except
    (emit sio "match_result" (MatchResultPayload "completed" result) sid)
    (fun _ => discard_connection user_id sid) g
  = (mkGateway
       (if delivered sio sid then active_connections g
        else <[user_id := conns ∖ {[sid]}]> (active_connections g))
       (sessions g) (emitted g ++ [attempt result sid]),
     ok tt).
Proof.
  intros Hg. unfold try_except, emit, discard_connection, delivered.
  destruct (emit_fails sio sid); simpl; [|done]. by rewrite Hg.
Qed.

(** The fan-out loop over the connections [sids] of a registered user:
    one attempt per connection, in order; the connections whose delivery
    fails leave the user's set; no exception escapes. *)
Lemma broadcast_loop_run (user_id : string) (result : MatchResult)
    (sids : list string) : forall (g : Gateway) (conns : gset string),
  active_connections g !! user_id = Some conns ->
  broadcast_loop sio user_id result sids g
  = (mkGateway
       (<[user_id := conns ∖ list_to_set
                               (filter (fun sid => ¬ delivered sio sid) sids)]>
          (active_connections g))
       (sessions g) (emitted g ++ (attempt result <$> sids)),
     ok tt).
Proof.
  induction sids as [|sid sids IH]; intros g conns Hg.
  - simpl. unfold mret, St_ret, ret. destruct g as [reg ses em]. simpl in *.
    rewrite app_nil_r. f_equal. f_equal.
    rewrite insert_id; [done|]. rewrite Hg. f_equal. set_solver.
  - cbn [broadcast_loop]. unfold mbind, St_bind, bind.
    rewrite (deliver_one _ _ _ _ _ Hg).
    destruct (delivered sio sid) eqn:Hd.
    + rewrite (IH _ conns) by done. unfold ok. cbv iota beta.
      cbn [active_connections sessions emitted].
      rewrite <- (assoc_L (++)).
      rewrite filter_cons_False by (rewrite Hd; simpl; tauto).
      done.
    + rewrite (IH _ (conns ∖ {[sid]})) by (simpl; apply lookup_insert_eq).
      unfold ok. cbv iota beta.
      cbn [active_connections sessions emitted].
      rewrite insert_insert_eq, <- (assoc_L (++)).
      rewrite filter_cons_True by (rewrite Hd; simpl; tauto).
      replace (conns ∖ {[sid]}
                 ∖ list_to_set
                     (filter (fun sid0 : string => ¬ delivered sio sid0) sids))
        with (conns ∖ list_to_set
                        (sid :: filter (fun sid0 : string => ¬ delivered sio sid0)
                                  sids))
        by set_solver.
      done.
Qed.

Lemma stale_of_elements (conns : gset string) :
  conns ∖ list_to_set (filter (fun sid => ¬ delivered sio sid) (elements conns))
  = filter (fun sid => Is_true (delivered sio sid)) conns.
Proof.
  apply set_eq. intros sid.
  rewrite elem_of_difference, elem_of_list_to_set, list_elem_of_filter,
    elem_of_filter, elem_of_elements.
  destruct (delivered sio sid); simpl; tauto.
Qed.

(** [connect] keeps every registered set non-empty. *)
Lemma connect_no_empty_sets (sid : string) (auth : option string)
    (g : Gateway) :
  no_empty_sets (active_connections g) ->
  no_empty_sets (active_connections (connect sio sid auth g).1).
Proof.
  intros Hinv. unfold connect.
  destruct auth as [user_id|]; [|done].
  case_decide; [done|].
  assert (no_empty_sets
            (<[user_id := default ∅ (active_connections g !! user_id) ∪ {[sid]}]>
               (active_connections g))) as Hinv'.
  { intros u sids. destruct (decide (user_id = u)) as [<-|Hne].
    - rewrite lookup_insert_eq. intros [= <-]. set_solver.
    - rewrite lookup_insert_ne by done. apply Hinv. }
  run_st. unfold track_connection, open_session, store_session, emit.
  run_st. simpl.
  destruct (session_fails sio sid); [done|]. simpl.
  by destruct (emit_fails sio sid).
Qed.

(** [disconnect] keeps every registered set non-empty. *)
Lemma disconnect_no_empty_sets (sid : string) (g : Gateway) :
  no_empty_sets (active_connections g) ->
  no_empty_sets (active_connections (disconnect sio sid g).1).
Proof.
  intros Hinv. unfold disconnect, open_session, session_user. run_st.
  destruct (session_fails sio sid); [done|]. simpl.
  destruct (sessions g !! sid) as [user_id|]; [|done].
  case_decide; [done|]. unfold forget_connection.
  destruct (active_connections g !! user_id) as [conns|] eqn:Hu; [|done].
  simpl. case_decide as Hempty.
  - intros u sids. destruct (decide (user_id = u)) as [<-|Hne].
    + by rewrite lookup_delete_eq.
    + rewrite lookup_delete_ne by done. apply Hinv.
  - intros u sids. destruct (decide (user_id = u)) as [<-|Hne].
    + rewrite lookup_insert_eq. by intros [= <-].
    + rewrite lookup_insert_ne by done. apply Hinv.
Qed.

End Gateway.

(** C6. Fan-out.  For a user with registered connections, one delivery is
    attempted to each connection of the set, once (three connections:
    three attempts), whether or not an earlier delivery failed; the
    connections whose delivery failed, and only they, leave the user's
    set; the other users' sets and the sessions are untouched; no error is
    raised.  For a user with no registered connections nothing is
    attempted and nothing is kept for a retry. *)
Theorem C6_fan_out (sio : SocketIO) (user_id : string) (result : MatchResult)
    (g : Gateway) :
  (forall conns : gset string,
      active_connections g !! user_id = Some conns ->
      exists g' attempts,
        broadcast_to_user sio user_id result g = (g', ok tt)
        /\ emitted g' = emitted g ++ attempts
        /\ attempts = attempt result <$> elements conns
        /\ room <$> attempts ≡ₚ elements conns
        /\ length attempts = size conns
        /\ (forall sid, sid ∈ conns -> attempt result sid ∈ attempts)
        /\ active_connections g'
           = <[user_id := filter (fun sid => Is_true (delivered sio sid)) conns]>
               (active_connections g)
        /\ (forall other, other ≠ user_id ->
              active_connections g' !! other = active_connections g !! other)
        /\ sessions g' = sessions g)
  /\ (active_connections g !! user_id = None ->
      broadcast_to_user sio user_id result g = (g, ok tt)).
Proof.
  split.
  - intros conns Hg. unfold broadcast_to_user. rewrite Hg.
    rewrite (broadcast_loop_run sio user_id result (elements conns) g conns Hg).
    rewrite stale_of_elements.
    eexists _, _. split; [reflexivity|]. cbn [emitted active_connections sessions].
    split_and!; try done.
    + rewrite <- list_fmap_compose. change (room ∘ attempt result) with (@id string).
      by rewrite list_fmap_id.
    + by rewrite length_fmap.
    + intros sid Hsid. apply list_elem_of_fmap_2. by apply elem_of_elements.
    + intros other Hne. by rewrite lookup_insert_ne.
  - intros Hg. unfold broadcast_to_user. by rewrite Hg.
Qed.

(** C6 for a user with three connections of which [s2] is stale: three
    attempts, [s2] alone removed, the other user untouched. *)
Lemma C6_fan_out_witness :
  exists g' attempts,
    broadcast_to_user sio_s2_stale "u1" result_example gateway_three
    = (g', ok tt)
    /\ emitted g' = attempts
    /\ length attempts = 3%nat
    /\ active_connections g' !! "u1" = Some {[ "s1"; "s3" ]}
    /\ active_connections g' !! "u2" = Some {[ "s9" ]}.
Proof.
  destruct (proj1 (C6_fan_out sio_s2_stale "u1" result_example gateway_three)
              {[ "s1"; "s2"; "s3" ]} eq_refl)
    as (g' & attempts & Hrun & Hem & _ & _ & Hlen & _ & Hreg & Hother & _).
  exists g', attempts. split_and!.
  - exact Hrun.
  - exact Hem.
  - rewrite Hlen. vm_compute. reflexivity.
  - rewrite Hreg, lookup_insert_eq. vm_compute. reflexivity.
  - rewrite Hother by discriminate. reflexivity.
Defined.

(** C7.  The registry invariant holds before, and fails after, the
    delivery-time removal of a user's only connection: [broadcast_to_user]
    discards the stale connection and leaves the user key with an empty
    set, where [disconnect] deletes the key. *)
Theorem C7_stale_removal_leaves_empty_set :
  no_empty_sets (active_connections gateway_one)
  /\ broadcast_to_user sio_s2_stale "u1" result_example gateway_one
     = (mkGateway {[ "u1" := ∅ ]} {[ "s2" := "u1" ]}
          [attempt result_example "s2"], ok tt)
  /\ ~ no_empty_sets
         (active_connections
            (broadcast_to_user sio_s2_stale "u1" result_example gateway_one).1)
  /\ active_connections (disconnect sio_s2_stale "s2" gateway_one).1 = ∅.
Proof.
  assert (broadcast_to_user sio_s2_stale "u1" result_example gateway_one
          = (mkGateway {[ "u1" := ∅ ]} {[ "s2" := "u1" ]}
               [attempt result_example "s2"], ok tt)) as Hrun.
  { vm_compute. reflexivity. }
  split_and!.
  - intros u sids. simpl.
    destruct (decide (u = "u1")) as [->|Hne].
    + rewrite lookup_singleton_eq. intros [= <-]. set_solver.
    + by rewrite lookup_singleton_ne.
  - exact Hrun.
  - rewrite Hrun. simpl. intros Hinv.
    apply (Hinv "u1" ∅); [apply lookup_singleton_eq|reflexivity].
  - vm_compute. reflexivity.
Qed.

(** * Further properties of the code *)

(** ** More on the diversity filter *)

(** The filter returns its input, or the input had three leading entries
    of one category and a first later entry of another, now at index 2. *)
Lemma diversity_filter_moved (matches : list Dict) :
  _apply_diversity_filter matches = matches
  \/ exists a b x d pre post,
      matches = a :: b :: x :: pre ++ d :: post
      /\ category a = category b /\ category b = category x
      /\ Forall (fun m : Dict => category m = category a) pre
      /\ category d ≠ category a
      /\ _apply_diversity_filter matches = a :: b :: d :: x :: pre ++ post.
Proof.
  destruct (decide (length matches < 4)%nat) as [Hlen|Hlen].
  { left. unfold _apply_diversity_filter. by rewrite decide_True. }
  destruct (top_three matches) as (a & b & x & rest & -> & Hrest); [lia|].
  rewrite diversity_filter_unfold by done.
  case_decide as Hsame; [|by left]. destruct Hsame as [Hab Hbx].
  destruct (split_first_other (category a) rest)
    as [Hall|(pre & d & post & -> & Hpre & Hd)].
  - left. apply diversity_scan_same. intros i m Hi Hm.
    apply elem_of_seq in Hi.
    destruct i as [|[|[|i]]]; try lia. simpl in Hm.
    rewrite Forall_lookup in Hall. by apply (Hall i).
  - right. exists a, b, x, d, pre, post. split_and!; try done.
    rewrite length_app. simpl.
    apply (diversity_scan_moves (category a) pre [a; b; x] d post Hpre Hd).
Qed.

(** X1. Applying the diversity filter to its own output changes nothing:
    after an injection the first three entries hold two categories. *)
Theorem X1_diversity_filter_idempotent (matches : list Dict) :
  _apply_diversity_filter (_apply_diversity_filter matches)
  = _apply_diversity_filter matches.
Proof.
  destruct (diversity_filter_moved matches)
    as [Heq|(a & b & x & d & pre & post & -> & Hab & Hbx & _ & Hd & ->)];
    [by rewrite !Heq|].
  rewrite diversity_filter_unfold by done.
  rewrite decide_False; [done|]. intros [_ Hbd]. congruence.
Qed.

(** X2. For every list, the output of the diversity filter is a
    permutation of the input of the same length, with the same first two
    entries: the top candidate is never displaced.  A list whose entries
    all share one category is returned unchanged. *)
Theorem X2_diversity_filter_frame (matches : list Dict) :
  _apply_diversity_filter matches ≡ₚ matches
  /\ length (_apply_diversity_filter matches) = length matches
  /\ take 2 (_apply_diversity_filter matches) = take 2 matches
  /\ head (_apply_diversity_filter matches) = head matches
  /\ (forall c, Forall (fun m : Dict => category m = c) matches ->
                _apply_diversity_filter matches = matches).
Proof.
  destruct (diversity_filter_moved matches)
    as [->|(a & b & x & d & pre & post & -> & Hab & Hbx & Hpre & Hd & ->)].
  { by split_and!. }
  split_and!.
  - apply moved_is_permutation.
  - simpl. rewrite !length_app. simpl. lia.
  - reflexivity.
  - reflexivity.
  - intros c Hall. exfalso.
    rewrite !Forall_cons, Forall_app, Forall_cons in Hall.
    destruct Hall as (Ha & _ & _ & _ & Hdc & _). congruence.
Qed.

(** ** More on the hybrid matcher *)

Lemma enrich_length (community_map : gmap string Dict) (hits : list Hit) :
  (length (enrich community_map hits) <= length hits)%nat.
Proof.
  induction hits as [|h hits IH]; simpl; [lia|].
  destruct (community_map !! hit_community_id h); simpl; lia.
Qed.

Lemma enrich_ids (community_map : gmap string Dict) (hits : list Hit) :
  community_id <$> enrich community_map hits
  = hit_community_id
    <$> filter (fun h => is_Some (community_map !! hit_community_id h)) hits.
Proof.
  induction hits as [|h hits IH]; [done|]. cbn [enrich].
  destruct (community_map !! hit_community_id h) as [c|] eqn:Hc.
  - rewrite filter_cons_True by (by rewrite Hc).
    rewrite !fmap_cons. by rewrite IH.
  - rewrite filter_cons_False by (rewrite Hc; by intros [? ?]). done.
Qed.

Lemma hit_ids_NoDup (P : Hit -> Prop) `{forall h, Decision (P h)}
    (hits : list Hit) :
  NoDup (hit_community_id <$> hits) ->
  NoDup (hit_community_id <$> filter P hits).
Proof.
  intros Hnd. apply (sublist_NoDup _ (hit_community_id <$> hits) Hnd).
  apply fmap_sublist, sublist_filter.
Qed.

(** X3. When the locality filter finds communities, the matcher returns no
    more entries than the similarity search returned hits (so at most 20
    when the index honours [top_k=20]), and no community twice when no hit
    is repeated. *)
Theorem X3_hybrid_output_bounded (db : DatabaseManager) (v : list float)
    (city tz : string) (w : World) (filtered : list Dict) (hits : list Hit) :
  filter_communities_by_location db city tz 1000 = inr filtered ->
  filtered ≠ [] ->
  vector_search db v (community_id <$> filtered) 20 = inr hits ->
  exists out,
    _hybrid_matching_algorithm db v city tz w = (w, inr out)
    /\ (length out <= length hits)%nat
    /\ ((length hits <= 20)%nat -> (length out <= 20)%nat)
    /\ (NoDup (hit_community_id <$> hits) -> NoDup (community_id <$> out)).
Proof.
  intros Hf Hne Hv. eexists. split; [by apply hybrid_nonempty|].
  pose proof (diversity_filter_permutation
                (enrich (community_map_of filtered) hits)) as Hperm.
  pose proof (enrich_length (community_map_of filtered) hits) as Hlen.
  rewrite (Permutation_length Hperm). split_and!; [done|lia|].
  intros Hnd. rewrite Hperm, enrich_ids. by apply hit_ids_NoDup.
Qed.

(** X3 at the example with a stale hit in front: six hits, five entries. *)
Lemma X3_hybrid_output_bounded_witness :
  exists out,
    _hybrid_matching_algorithm (db_example hits_with_stale) [] "Pune" "IST"
      world0 = (world0, inr out)
    /\ (length out <= 6)%nat
    /\ NoDup (community_id <$> out).
Proof.
  destruct (X3_hybrid_output_bounded (db_example hits_with_stale) [] "Pune"
              "IST" world0 _ hits_with_stale eq_refl)
    as (out & Heq & Hlen & _ & Hnd); [discriminate|reflexivity|].
  exists out. split_and!; [exact Heq|exact Hlen|].
  apply Hnd. simpl.
  repeat (apply NoDup_cons; split;
          [intros H; repeat (apply elem_of_cons in H as [H|H]; [discriminate|]);
           by apply elem_of_nil in H|]).
  apply NoDup_nil_2.
Defined.

(** ** More on the decision engine *)

Section EngineShape.

Variable db : DatabaseManager.
Variable openai : OpenAI.
Variables (task_id user_id : string) (user_bio : pystr).

Local Abbreviation engine :=
  (_apply_decision_engine db openai task_id user_id user_bio).

(** The four ways through the engine for a non-empty list. *)
Lemma engine_nonempty (w : World) (top : Dict) (rest : list Dict) :
  (match_score top = None
   /\ engine (top :: rest) w = (w, inl (KeyError "match_score")))
  \/ (exists s, match_score top = Some s /\ PyFloat.gt s 0.87 = true)
  \/ (exists s, match_score top = Some s /\ PyFloat.gt s 0.87 = false
                /\ PyFloat.ge s 0.55 = true
                /\ engine (top :: rest) w
                   = (w, inr (explorer_result task_id user_id (top :: rest))))
  \/ (exists s, match_score top = Some s /\ PyFloat.gt s 0.87 = false
                /\ PyFloat.ge s 0.55 = false
                /\ engine (top :: rest) w = fallback_result db task_id user_id w).
Proof.
  unfold _apply_decision_engine.
  destruct (match_score top) as [s|]; [|by left].
  right. destruct (PyFloat.gt s 0.87) eqn:Hgt; [left; by exists s|].
  right. destruct (PyFloat.ge s 0.55) eqn:Hge; [left|right]; by exists s.
Qed.

(** The engine writes to the membership table only, and only the pair of
    the user and the top candidate. *)
Lemma engine_frame (ms : list Dict) (w : World) :
  let w' := (engine ms w).1 in
  user_vectors w' = user_vectors w
  /\ published w' = published w
  /\ community_members w ⊆ community_members w'
  /\ (forall top, head ms = Some top ->
        community_members w'
        ⊆ community_members w ∪ {[ (user_id, community_id top) ]}).
Proof.
  assert (forall w0, let w' := (fallback_result db task_id user_id w0).1 in
                     w' = w0) as Hfb.
  { intros w0. unfold fallback_result. run_st.
    by destruct (get_popular_communities db 5). }
  destruct ms as [|top rest].
  { simpl. rewrite Hfb. split_and!; try done. }
  destruct (engine_nonempty w top rest)
    as [[_ ->]|[(s & Hs & Hgt)|[(s & _ & _ & _ & ->)|(s & _ & _ & _ & ->)]]].
  - simpl. split_and!; try done. intros top' _. set_solver.
  - rewrite (engine_soulmate _ _ _ _ _ _ _ _ _ Hs Hgt).
    repeat case_match; simpl; split_and!; try done;
      try (intros top' [= <-]); set_solver.
  - simpl. split_and!; try done. intros top' _. set_solver.
  - rewrite Hfb. split_and!; try done. intros top' _. set_solver.
Qed.

End EngineShape.

(** Every result of the engine, by its tier. *)
Lemma engine_result_shape (db : DatabaseManager) (openai : OpenAI)
    (task_id user_id : string) (user_bio : pystr) (ms : list Dict)
    (w w' : World) (r : MatchResult) :
  _apply_decision_engine db openai task_id user_id user_bio ms w
  = (w', inr r) ->
  Models.task_id r = task_id /\ Models.user_id r = user_id
  /\ processing_time_ms r = 0
  /\ match tier r with
     | SOULMATE =>
         exists top rest,
           ms = top :: rest
           /\ matches r = [_to_community_match top None]
           /\ auto_joined_community r = Some (community_id top)
           /\ requires_profile_update r = false
     | EXPLORER =>
         matches r = (fun m => _to_community_match m None) <$> take 5 ms
         /\ (1 <= length (matches r) <= 5)%nat
         /\ auto_joined_community r = None
         /\ ai_intro_generated r = false
         /\ requires_profile_update r = false
     | FALLBACK =>
         exists popular,
           get_popular_communities db 5 = inr popular
           /\ matches r
              = (fun c => _to_community_match c (Some 0.0%float)) <$> popular
           /\ Forall (fun m => cm_match_score m = 0.0%float) (matches r)
           /\ auto_joined_community r = None
           /\ ai_intro_generated r = false
           /\ requires_profile_update r = true
     end.
Proof.
  assert (forall w0 w1 r0,
             fallback_result db task_id user_id w0 = (w1, inr r0) ->
             exists popular,
               get_popular_communities db 5 = inr popular
               /\ r0 = popular_result task_id user_id popular) as Hfb.
  { intros w0 w1 r0. unfold fallback_result. run_st.
    destruct (get_popular_communities db 5) as [|popular]; [done|].
    intros [= <- <-]. by exists popular. }
  assert (forall popular,
             Forall (fun m => cm_match_score m = 0.0%float)
               (matches (popular_result task_id user_id popular))) as Hzero.
  { intros popular. simpl. apply Forall_fmap, Forall_true. done. }
  intros Hrun. destruct ms as [|top rest].
  { apply Hfb in Hrun as (popular & Hpop & ->).
    split_and!; try done. exists popular. split_and!; try done. }
  destruct (engine_nonempty db openai task_id user_id user_bio w top rest)
    as [[_ He]|[(s & Hs & Hgt)|[(s & _ & _ & _ & He)|(s & _ & _ & _ & He)]]].
  - rewrite He in Hrun. done.
  - rewrite (engine_soulmate _ _ _ _ _ _ _ _ _ Hs Hgt) in Hrun.
    assert (exists b, r = soulmate_result task_id user_id top b) as [b ->].
    { repeat case_match; try done; injection Hrun as <- <-; by eexists. }
    split_and!; try done. by exists top, rest.
  - rewrite He in Hrun. injection Hrun as <- <-.
    split_and!; try done. unfold explorer_result.
    cbn [tier matches auto_joined_community ai_intro_generated
           requires_profile_update].
    split_and!; try done; rewrite length_fmap, length_take, length_cons; lia.
  - rewrite He in Hrun. apply Hfb in Hrun as (popular & Hpop & ->).
    split_and!; try done. exists popular. split_and!; try done.
Qed.

(** X4. The shape of every result that the decision engine returns, by
    its tier.  Soulmate: one match, which shows the top candidate, named
    as auto-joined.  Explorer: the first five candidates at most, at least
    one, entry by entry with the candidate's own score, no join, no
    introduction.  Fallback: the popular communities, entry by entry,
    every score 0.0, a profile update requested.  A match shows a
    community by its identifier, name, category, member count and
    activity.  Only a Fallback result requests a profile update, and only
    a Soulmate result names a joined community or an introduction. *)
Theorem X4_result_shape (db : DatabaseManager) (openai : OpenAI)
    (task_id user_id : string) (user_bio : pystr) (ms : list Dict)
    (w w' : World) (r : MatchResult) :
  _apply_decision_engine db openai task_id user_id user_bio ms w
  = (w', inr r) ->
  Models.task_id r = task_id /\ Models.user_id r = user_id
  /\ processing_time_ms r = 0
  /\ match tier r with
     | SOULMATE =>
         exists top rest,
           ms = top :: rest
           /\ matches r = [_to_community_match top None]
           /\ auto_joined_community r = Some (community_id top)
           /\ requires_profile_update r = false
           /\ exists cm, matches r = [cm] /\ shows cm top (score top)
     | EXPLORER =>
         matches r = (fun m => _to_community_match m None) <$> take 5 ms
         /\ (1 <= length (matches r) <= 5)%nat
         /\ auto_joined_community r = None
         /\ ai_intro_generated r = false
         /\ requires_profile_update r = false
         /\ Forall2 (fun cm m => shows cm m (score m)) (matches r) (take 5 ms)
     | FALLBACK =>
         exists popular,
           get_popular_communities db 5 = inr popular
           /\ matches r
              = (fun c => _to_community_match c (Some 0.0%float)) <$> popular
           /\ Forall (fun m => cm_match_score m = 0.0%float) (matches r)
           /\ auto_joined_community r = None
           /\ ai_intro_generated r = false
           /\ requires_profile_update r = true
           /\ Forall2 (fun cm c => shows cm c 0.0%float) (matches r) popular
     end.
Proof.
  intros Hrun.
  destruct (engine_result_shape _ _ _ _ _ _ _ _ _ Hrun)
    as (Hid & Huid & Htime & Hshape).
  split_and!; [done|done|done|].
  destruct (tier r).
  - destruct Hshape as (top & rest & -> & Hm & Hj & Hp).
    exists top, rest. split_and!; try done.
    rewrite Hm. eexists. split; [done|apply to_community_match_own].
  - destruct Hshape as (Hm & [Hlo Hhi] & Hj & Hi & Hp).
    split_and!; try done. rewrite Hm. apply matches_show_own.
  - destruct Hshape as (popular & Hpop & Hm & Hzero & Hj & Hi & Hp).
    exists popular. split_and!; try done. rewrite Hm. apply matches_show_at.
Qed.

(** X4 for a top score of 0.70 in front of the five example candidates:
    six candidates, five matches, the first of which shows [F]. *)
Lemma X4_result_shape_witness :
  exists r,
    _apply_decision_engine (db_example []) openai_embed_only "t1" "u1" []
      (cand "F" "Tech" 0.70 :: spec_example_output) world0 = (world0, inr r)
    /\ length (matches r) = 5%nat
    /\ head (matches r) = Some (mkCommunityMatch "F" (lit "F") "Tech" 0.70 0 0)
    /\ auto_joined_community r = None
    /\ requires_profile_update r = false.
Proof.
  exists (explorer_result "t1" "u1"
            (cand "F" "Tech" 0.70 :: spec_example_output)).
  split; [reflexivity|].
  pose proof (X4_result_shape (db_example []) openai_embed_only "t1" "u1" []
                (cand "F" "Tech" 0.70 :: spec_example_output) world0 world0
                (explorer_result "t1" "u1"
                   (cand "F" "Tech" 0.70 :: spec_example_output))
                eq_refl) as (_ & _ & _ & Hm & _ & Hj & _ & Hp & _).
  split_and!; [by rewrite Hm|by rewrite Hm|exact Hj|exact Hp].
Defined.

(** X5. The side effects of the decision engine, whether it returns or
    raises: it writes neither the vector cache, nor the published results,
    nor the task states; it removes no membership and adds at most the
    pair of the user and the top candidate; and when it returns an
    Explorer or a Fallback result it has written nothing at all. *)
Theorem X5_engine_side_effects (db : DatabaseManager) (openai : OpenAI)
    (task_id user_id : string) (user_bio : pystr) (ms : list Dict)
    (w : World) :
  let out := _apply_decision_engine db openai task_id user_id user_bio ms w in
  user_vectors out.1 = user_vectors w
  /\ published out.1 = published w
  /\ task_updates out.1 = task_updates w
  /\ community_members w ⊆ community_members out.1
  /\ (forall top, head ms = Some top ->
        community_members out.1
        ⊆ community_members w ∪ {[ (user_id, community_id top) ]})
  /\ (forall r, out.2 = inr r -> tier r ≠ SOULMATE -> out.1 = w).
Proof.
  intros out. subst out.
  destruct (engine_frame db openai task_id user_id user_bio ms w)
    as (Hv & Hp & Hsub & Hadd).
  split_and!; try done.
  - apply engine_task_updates.
  - intros r Hr Htier.
    assert (forall w0, (fallback_result db task_id user_id w0).1 = w0) as Hfb.
    { intros w0. unfold fallback_result. run_st.
      by destruct (get_popular_communities db 5). }
    destruct ms as [|top rest]; [apply Hfb|].
    destruct (engine_nonempty db openai task_id user_id user_bio w top rest)
      as [[_ He]|[(s & Hs & Hgt)|[(s & _ & _ & _ & He)|(s & _ & _ & _ & He)]]].
    + by rewrite He.
    + exfalso. apply Htier.
      rewrite (engine_soulmate _ _ _ _ _ _ _ _ _ Hs Hgt) in Hr.
      repeat case_match; try done; simpl in Hr; by injection Hr as <-.
    + by rewrite He.
    + rewrite He. apply Hfb.
Qed.

(** ** Scores that are not numbers *)

(** A NaN compares false with everything. *)
Lemma nan_compare (s : float) :
  PrimFloat.is_nan s = true -> Prim2SF s = S754_nan.
Proof.
  unfold PrimFloat.is_nan. rewrite FloatAxioms.eqb_spec. unfold SFeqb.
  destruct (Prim2SF s) as [sg|sg| |sg m e]; simpl; try done.
  - by destruct sg.
  - rewrite Z.compare_refl.
    change (Pos.compare_cont Eq m m) with (Pos.compare m m).
    rewrite Pos.compare_refl. by destruct sg.
Qed.

Lemma nan_not_gt (s t : float) :
  PrimFloat.is_nan s = true ->
  PyFloat.gt s t = false /\ PyFloat.ge s t = false /\ PyFloat.lt s t = false.
Proof.
  intros Hs%nan_compare.
  unfold PyFloat.gt, PyFloat.ge, PyFloat.lt.
  rewrite !ltb_spec, leb_spec, Hs. unfold SFltb, SFleb.
  split_and!; [by destruct (Prim2SF t)|by destruct (Prim2SF t)|done].
Qed.

(** X6. A top candidate whose score is NaN passes neither threshold test:
    the engine takes the Fallback branch, whatever the other candidates
    score. *)
Theorem X6_nan_score_is_fallback (db : DatabaseManager) (openai : OpenAI)
    (task_id user_id : string) (user_bio : pystr) (w : World)
    (top : Dict) (rest : list Dict) (s : float) (popular : list Dict) :
  match_score top = Some s ->
  PrimFloat.is_nan s = true ->
  get_popular_communities db 5 = inr popular ->
  _apply_decision_engine db openai task_id user_id user_bio (top :: rest) w
  = (w, inr (popular_result task_id user_id popular)).
Proof.
  intros Hs Hnan Hpop. destruct (nan_not_gt s 0.87 Hnan) as (Hgt & _ & _).
  destruct (nan_not_gt s 0.55 Hnan) as (_ & Hge & _).
  unfold _apply_decision_engine. rewrite Hs, Hgt, Hge.
  by apply fallback_result_ok.
Qed.

(** X6 for a NaN in front of a candidate that scores 0.95. *)
Lemma X6_nan_score_is_fallback_witness :
  _apply_decision_engine (db_example []) openai_embed_only "t1" "u1" []
    (cand "N" "Tech" nan :: spec_example) world0
  = (world0, inr (popular_result "t1" "u1" popular_example)).
Proof.
  apply (X6_nan_score_is_fallback (db_example []) openai_embed_only "t1" "u1"
           [] world0 (cand "N" "Tech" nan) spec_example nan popular_example);
    reflexivity.
Defined.

(** ** The toxicity score *)

Lemma SFcompare_eq_r (x y z : spec_float) :
  SFcompare x y = Some Lt -> SFcompare y z = Some Eq ->
  SFcompare x z = Some Lt.
Proof.
  destruct x as [sx|sx| |sx mx ex], y as [sy|sy| |sy my ey],
           z as [sz|sz| |sz mz ez];
    simpl; try discriminate;
    repeat match goal with s : bool |- _ => destruct s end;
    try discriminate; try reflexivity.
  all: change (Pos.compare_cont Eq ?a ?b) with (Pos.compare a b).
  all: destruct (Z.compare_spec ex ey), (Z.compare_spec ey ez),
         (Z.compare_spec ex ez);
    try discriminate; try reflexivity; try lia.
  all: destruct (Pos.compare_spec mx my), (Pos.compare_spec my mz),
         (Pos.compare_spec mx mz);
    simpl; try discriminate; try reflexivity; try lia.
Qed.

Lemma gt_irrefl (a : float) : PyFloat.gt a a = false.
Proof.
  unfold PyFloat.gt. destruct (PrimFloat.ltb a a) eqn:H; [|done].
  apply ltb_inv in H. pose proof (SFcompare_opp _ _ _ H) as H'.
  rewrite H in H'. discriminate.
Qed.

(** [c > b] and [b > a] give [c > a]. *)
Lemma gt_trans (a b c : float) :
  PyFloat.gt b a = true -> PyFloat.gt c b = true -> PyFloat.gt c a = true.
Proof.
  unfold PyFloat.gt. intros Hab%ltb_inv Hbc%ltb_inv.
  rewrite ltb_spec. unfold SFltb.
  by rewrite (SFcompare_lt_trans _ _ _ Hab Hbc).
Qed.

(** What is not above the running maximum is not above the final one. *)
Lemma max_list_above (xs : list float) : forall best z,
  PyFloat.gt z best = false -> PyFloat.gt z (PyFloat.max_list best xs) = false.
Proof.
  induction xs as [|y xs IH]; intros best z Hz; [done|].
  cbn [PyFloat.max_list foldl]. apply IH.
  destruct (PyFloat.gt y best) eqn:Hy; [|done].
  destruct (PyFloat.gt z y) eqn:Hzy; [|done].
  by rewrite (gt_trans best y z Hy Hzy) in Hz.
Qed.

(** The builtin [max]: the result is an element, and no element is
    greater. *)
Lemma max_list_spec (xs : list float) (x : float) :
  PyFloat.max_list x xs ∈ x :: xs
  /\ forall y, y ∈ x :: xs -> PyFloat.gt y (PyFloat.max_list x xs) = false.
Proof.
  revert x. induction xs as [|y xs IH]; intros x.
  - split; [by left|]. intros z ->%list_elem_of_singleton. apply gt_irrefl.
  - change (PyFloat.max_list x (y :: xs))
      with (PyFloat.max_list (if PyFloat.gt y x then y else x) xs).
    destruct (IH (if PyFloat.gt y x then y else x)) as [Hin Hub].
    split.
    + apply elem_of_cons in Hin as [->|Hin].
      * destruct (PyFloat.gt y x); [right; by left|by left].
      * by do 2 right.
    + intros z Hz. apply elem_of_cons in Hz as [->|Hz].
      * apply max_list_above. destruct (PyFloat.gt y x) eqn:Hy; [|apply gt_irrefl].
        destruct (PyFloat.gt x y) eqn:Hxy; [|done].
        pose proof (gt_trans _ _ _ Hy Hxy) as H. by rewrite gt_irrefl in H.
      * apply elem_of_cons in Hz as [->|Hz].
        -- apply max_list_above. destruct (PyFloat.gt y x) eqn:Hy; [apply gt_irrefl|done].
        -- apply Hub. by right.
Qed.

(** A score at or above the threshold that is not above [r] keeps [r] from
    being below the threshold. *)
Lemma ge_threshold_blocks (s r t : float) :
  PyFloat.ge s t = true -> PyFloat.gt s r = false -> PyFloat.lt r t = false.
Proof.
  unfold PyFloat.ge, PyFloat.gt, PyFloat.lt. rewrite leb_spec. unfold SFleb.
  intros Hts Hrs. destruct (PrimFloat.ltb r t) eqn:Hrt; [|done].
  apply ltb_inv in Hrt. rewrite ltb_spec in Hrs. unfold SFltb in Hrs.
  destruct (SFcompare (Prim2SF t) (Prim2SF s)) as [[]|] eqn:Hc; try done.
  - by rewrite (SFcompare_eq_r _ _ _ Hrt Hc) in Hrs.
  - by rewrite (SFcompare_lt_trans _ _ _ Hrt Hc) in Hrs.
Qed.

Lemma check_toxicity_bounds (openai : OpenAI) (text : pystr)
    (hate harassment violence sexual : float) :
  moderations_create openai text = inr (hate, harassment, violence, sexual) ->
  _check_toxicity openai text ∈ [hate; harassment; violence; sexual]
  /\ forall score, score ∈ [hate; harassment; violence; sexual] ->
                   PyFloat.gt score (_check_toxicity openai text) = false.
Proof.
  intros H. unfold _check_toxicity. rewrite H.
  apply max_list_spec.
Qed.

(** X7. When the moderation call answers, the toxicity score is one of the
    four category scores (hate, harassment, violence, sexual), and none of
    the four is greater than it. *)
Theorem X7_check_toxicity_is_max (openai : OpenAI) (text : pystr)
    (hate harassment violence sexual : float) :
  moderations_create openai text = inr (hate, harassment, violence, sexual) ->
  _check_toxicity openai text ∈ [hate; harassment; violence; sexual]
  /\ forall score, score ∈ [hate; harassment; violence; sexual] ->
                   PyFloat.gt score (_check_toxicity openai text) = false.
Proof. apply check_toxicity_bounds. Qed.

(** X7 for the scores 0.1, 0.8, 0.3, 0.2: the score is 0.8. *)
Lemma X7_check_toxicity_is_max_witness :
  _check_toxicity (openai_up (0.1, 0.8, 0.3, 0.2)%float) (lit "Welcome!")
  ∈ [0.1; 0.8; 0.3; 0.2]%float
  /\ PyFloat.gt 0.8 (_check_toxicity (openai_up (0.1, 0.8, 0.3, 0.2)%float)
                       (lit "Welcome!")) = false.
Proof.
  destruct (X7_check_toxicity_is_max (openai_up (0.1, 0.8, 0.3, 0.2)%float)
              (lit "Welcome!") 0.1 0.8 0.3 0.2 eq_refl) as [Hin Hub].
  split; [exact Hin|]. apply Hub. right. by left.
Defined.

(** X8. The toxicity gate, for a new member whose introduction was written
    and moderated: the membership is inserted and the Soulmate result is
    returned in either case; the introduction counts as generated when
    each of the four category scores is below 0.75, and does not when one
    of them is at or above 0.75. *)
Theorem X8_toxicity_gate (db : DatabaseManager) (openai : OpenAI)
    (task_id user_id : string) (user_bio : pystr) (w : World)
    (top : Dict) (rest : list Dict) (s : float)
    (active_members : list Member) (details : gmap string Details)
    (text : pystr) (hate harassment violence sexual : float) :
  let cid := community_id top in
  match_score top = Some s ->
  PyFloat.gt s 0.87 = true ->
  insert_fails db = None ->
  (user_id, cid) ∉ community_members w ->
  get_community_members_for_intro db cid 5 = inr active_members ->
  get_community_details db [cid] = inr details ->
  intro_completion openai user_bio (community_name top)
    (default [] (description <$> details !! cid))
    (match active_members with m :: _ => Some (username m) | [] => None end)
  = inr text ->
  moderations_create openai text = inr (hate, harassment, violence, sexual) ->
  exists generated,
    _apply_decision_engine db openai task_id user_id user_bio (top :: rest) w
    = (mkWorld ({[ (user_id, cid) ]} ∪ community_members w)
         (user_vectors w) (published w) (task_updates w),
       inr (soulmate_result task_id user_id top generated))
    /\ ((exists score, score ∈ [hate; harassment; violence; sexual]
                       /\ PyFloat.ge score 0.75 = true) ->
        generated = false)
    /\ ((forall score, score ∈ [hate; harassment; violence; sexual] ->
                       PyFloat.lt score 0.75 = true) ->
        generated = true).
Proof.
  intros cid Hs Hgt Hins Hnew Hmem Hdet Hintro Hmod.
  exists (PyFloat.lt (_check_toxicity openai text) 0.75). split_and!.
  - rewrite (engine_soulmate _ _ _ _ _ _ _ _ _ Hs Hgt). fold cid.
    rewrite Hins, decide_False, Hmem, Hdet by done.
    unfold generate_ai_introduction. by rewrite Hintro.
  - intros (score & Hin & Hge).
    destruct (check_toxicity_bounds openai text _ _ _ _ Hmod) as [_ Hub].
    apply (ge_threshold_blocks score _ _ Hge). by apply Hub.
  - intros Hall.
    destruct (check_toxicity_bounds openai text _ _ _ _ Hmod) as [Hin _].
    by apply Hall.
Qed.

(** X8 with a harassment score of 0.8: joined, no introduction. *)
Lemma X8_toxicity_gate_witness :
  _apply_decision_engine (db_example []) (openai_up (0.1, 0.8, 0.3, 0.2)%float)
    "t1" "u1" [] (cand "A" "Tech" 0.90 :: []) world0
  = (mkWorld ({[ ("u1", "A") ]} ∪ ∅) ∅ [] [],
     inr (soulmate_result "t1" "u1" (cand "A" "Tech" 0.90) false)).
Proof.
  destruct (X8_toxicity_gate (db_example [])
              (openai_up (0.1, 0.8, 0.3, 0.2)%float) "t1" "u1" [] world0
              (cand "A" "Tech" 0.90) [] 0.90%float [] ∅ (lit "Welcome!")
              0.1 0.8 0.3 0.2 eq_refl eq_refl eq_refl)
    as (generated & Hrun & Hhigh & _);
    [set_solver|reflexivity|reflexivity|reflexivity|reflexivity|].
  rewrite Hrun, Hhigh; [reflexivity|].
  exists 0.8%float. split; [right; by left|reflexivity].
Defined.

(** ** Text that the PII scrub leaves alone *)

(** X9. A text with no ["@"] and no decimal digit goes through
    [_basic_pii_removal] unchanged: neither regular expression matches
    anywhere in it. *)
Theorem X9_scrub_leaves_plain_text (isalnum_high isdecimal_high : N -> bool)
    (text : pystr) :
  64%N ∉ text ->
  Forall (fun c => Re.digit_char isdecimal_high c = false) text ->
  _basic_pii_removal isalnum_high isdecimal_high text = text.
Proof. apply scrub_unchanged. Qed.

(** X9 for a bio in plain words. *)
Lemma X9_scrub_leaves_plain_text_witness :
  _basic_pii_removal no_high no_high (lit "I code daily.")
  = lit "I code daily.".
Proof.
  apply X9_scrub_leaves_plain_text.
  - intros H. simpl in H.
    repeat (apply elem_of_cons in H as [H|H]; [discriminate|]).
    by apply elem_of_nil in H.
  - simpl. repeat (apply List.Forall_cons; [reflexivity|]). apply List.Forall_nil.
Defined.

(** ** More on the task orchestrator *)

Section TaskEffects.

Variables (isalnum_high isdecimal_high : N -> bool).
Variable str_other : Json.value -> pystr.
Variable profile_error : Json.value -> Json.value -> Json.value -> option exn.
Variable db : DatabaseManager.
Variable openai : OpenAI.
Variable cache : CacheManager.
Variables (request_id : string) (elapsed_ms : Z) (user_data : UserData).

Local Abbreviation task :=
  (process_match_task isalnum_high isdecimal_high str_other profile_error
     db openai cache request_id elapsed_ms user_data).
Local Abbreviation sanitized :=
  (sanitize_and_enrich_profile isalnum_high isdecimal_high openai
     (ud_bio user_data) (ud_interest_tags user_data)).
Local Abbreviation embedding :=
  (embedding_step str_other openai sanitized.1.1 sanitized.1.2).
Local Abbreviation bio_text := (Json.py_str str_other sanitized.1.1).
Local Abbreviation uid := (ud_user_id user_data).

(** The matcher's result does not depend on the world. *)
Lemma hybrid_result_indep (v : list float) (city tz : string) (w w' : World) :
  (_hybrid_matching_algorithm db v city tz w).2
  = (_hybrid_matching_algorithm db v city tz w').2.
Proof.
  unfold _hybrid_matching_algorithm. run_st.
  destruct (filter_communities_by_location db city tz 1000) as [|[|c l]];
    [done|done|].
  by destruct (vector_search db v _ 20).
Qed.

Lemma hybrid_run (v : list float) (city tz : string) (w : World) :
  _hybrid_matching_algorithm db v city tz w
  = (w, (_hybrid_matching_algorithm db v city tz world0).2).
Proof.
  rewrite (hybrid_result_indep v city tz world0 w).
  rewrite <- (hybrid_world db v city tz w) at 2.
  by destruct (_hybrid_matching_algorithm db v city tz w).
Qed.

(** A task that returns went through every step; [v] is the vector, [ms]
    the matcher's list and [r] the engine's result. *)
Lemma task_success (w w' : World) (result : MatchResult) :
  task w = (w', inr result) ->
  exists v ms w5 r,
    profile_error sanitized.1.1 sanitized.1.2 sanitized.2 = None
    /\ embedding = inr v /\ setex_fails cache = None
    /\ publish_fails cache = None
    /\ (_hybrid_matching_algorithm db v (ud_city user_data)
          (ud_timezone user_data) world0).2 = inr ms
    /\ _apply_decision_engine db openai request_id uid bio_text ms
         (logged (world_at_match w uid v) [PROCESSING "decision_engine"])
       = (w5, inr r)
    /\ result = set_processing_time_ms r elapsed_ms
    /\ w' = with_published w5 uid result.
Proof.
  rewrite task_run.
  destruct (profile_error _ _ _); [done|].
  destruct embedding as [|v]; [done|].
  destruct (setex_fails cache); [done|].
  rewrite hybrid_run.
  destruct (_hybrid_matching_algorithm db v _ _ world0).2 as [|ms] eqn:Hm;
    [done|].
  destruct (_apply_decision_engine _ _ _ _ _ _ _) as [w5 [|r]] eqn:He; [done|].
  destruct (publish_fails cache); [done|].
  intros [= <- <-]. by exists v, ms, w5, r.
Qed.

Lemma last_failed (l before : list TaskUpdate) (e : exn) :
  last (l ++ before ++ [FAILED e]) = Some (FAILED e).
Proof. by rewrite (assoc_L (++)), last_snoc. Qed.

(** The world in which a failed task ends: nothing was published, and the
    last task state is [FAILED]. *)
Lemma task_failure (w w' : World) (e : exn) :
  task w = (w', inl e) ->
  published w' = published w /\ last (task_updates w') = Some (FAILED e).
Proof.
  rewrite task_run.
  destruct (profile_error _ _ _).
  { intros [= <- <-]. simpl. split; [done|].
    apply (last_failed _ [PROCESSING "sanitization"]). }
  destruct embedding as [|v].
  { intros [= <- <-]. simpl. split; [done|].
    apply (last_failed _ [PROCESSING "sanitization";
                          PROCESSING "vectorization"]). }
  destruct (setex_fails cache).
  { intros [= <- <-]. simpl. split; [done|].
    apply (last_failed _ [PROCESSING "sanitization";
                          PROCESSING "vectorization"]). }
  rewrite hybrid_run.
  destruct (_hybrid_matching_algorithm db v _ _ world0).2 as [|ms].
  { intros [= <- <-]. simpl. by rewrite ?Hp, last_snoc. }
  pose proof (engine_frame db openai request_id uid bio_text ms
                (logged (world_at_match w uid v)
                   [PROCESSING "decision_engine"])) as (_ & Hp & _).
  destruct (_apply_decision_engine _ _ _ _ _ _ _) as [w5 [|r]];
    simpl in Hp.
  { intros [= <- <-]. simpl. by rewrite ?Hp, last_snoc. }
  destruct (publish_fails cache); [|done].
  intros [= <- <-]. simpl. by rewrite ?Hp, last_snoc.
Qed.

End TaskEffects.

(** X10. A task publishes once or not at all.  A task that returns has
    published exactly one message, the returned result, on the user's own
    channel, after the four steps were recorded in order; the result
    carries the task id, the user id and the measured time, and the user
    vector is cached.  A task that raises has published nothing and its
    last recorded state is [FAILED]. *)
Theorem X10_publish_once_or_never (isalnum_high isdecimal_high : N -> bool)
    (str_other : Json.value -> pystr)
    (profile_error : Json.value -> Json.value -> Json.value -> option exn)
    (db : DatabaseManager) (openai : OpenAI) (cache : CacheManager)
    (request_id : string) (elapsed_ms : Z) (user_data : UserData)
    (w w' : World) :
  let task := process_match_task isalnum_high isdecimal_high str_other
                profile_error db openai cache request_id elapsed_ms
                user_data in
  let uid := ud_user_id user_data in
  (forall r, task w = (w', inr r) ->
     published w' = published w ++ [(uid, r)]
     /\ task_updates w'
        = task_updates w ++ [PROCESSING "sanitization";
                             PROCESSING "vectorization";
                             PROCESSING "hybrid_matching";
                             PROCESSING "decision_engine"]
     /\ Models.task_id r = request_id /\ Models.user_id r = uid
     /\ processing_time_ms r = elapsed_ms
     /\ is_Some (user_vectors w' !! uid))
  /\ (forall e, task w = (w', inl e) ->
        published w' = published w
        /\ last (task_updates w') = Some (FAILED e)).
Proof.
  intros task uid. subst task uid. split; [|intros e; apply task_failure].
  intros result
    (v & ms & w5 & r & _ & _ & _ & _ & _ & He & -> & ->)%task_success.
  pose proof (engine_frame db openai request_id (ud_user_id user_data)
                (Json.py_str str_other
                   (sanitize_and_enrich_profile isalnum_high isdecimal_high
                      openai (ud_bio user_data)
                      (ud_interest_tags user_data)).1.1) ms
                (logged (world_at_match w (ud_user_id user_data) v)
                   [PROCESSING "decision_engine"])) as (Hv & Hp & _).
  pose proof (engine_task_updates db openai request_id
                (ud_user_id user_data)
                (Json.py_str str_other
                   (sanitize_and_enrich_profile isalnum_high isdecimal_high
                      openai (ud_bio user_data)
                      (ud_interest_tags user_data)).1.1) ms
                (logged (world_at_match w (ud_user_id user_data) v)
                   [PROCESSING "decision_engine"])) as Hu.
  rewrite He in Hv, Hp, Hu. simpl in Hv, Hp, Hu.
  destruct (engine_result_shape _ _ _ _ _ _ _ _ _ He) as (Hid & Huid & _).
  split_and!; simpl; try done.
  - by rewrite Hp.
  - rewrite Hu. by rewrite <- (assoc_L (++)).
  - rewrite Hv. rewrite lookup_insert_eq. by eexists.
Qed.

(** The engine has inserted the membership that its result names. *)
Lemma engine_joined (db : DatabaseManager) (openai : OpenAI)
    (task_id user_id : string) (user_bio : pystr) (ms : list Dict)
    (w w' : World) (r : MatchResult) (cid : string) :
  _apply_decision_engine db openai task_id user_id user_bio ms w
  = (w', inr r) ->
  auto_joined_community r = Some cid ->
  (user_id, cid) ∈ community_members w'.
Proof.
  assert (forall w0 w1 r0,
             fallback_result db task_id user_id w0 = (w1, inr r0) ->
             auto_joined_community r0 = None) as Hfb.
  { intros w0 w1 r0. unfold fallback_result. run_st.
    destruct (get_popular_communities db 5); [done|]. by intros [= <- <-]. }
  intros Hrun Hj. destruct ms as [|top rest].
  { apply Hfb in Hrun. congruence. }
  destruct (engine_nonempty db openai task_id user_id user_bio w top rest)
    as [[_ He]|[(s & Hs & Hgt)|[(s & _ & _ & _ & He)|(s & _ & _ & _ & He)]]].
  - rewrite He in Hrun. done.
  - rewrite (engine_soulmate _ _ _ _ _ _ _ _ _ Hs Hgt) in Hrun.
    repeat case_match; try done; injection Hrun as <- <-;
      injection Hj as <-; simpl; set_solver.
  - rewrite He in Hrun. by injection Hrun as <- <-.
  - rewrite He in Hrun. apply Hfb in Hrun. congruence.
Qed.

(** X11. Nothing is rolled back when the publication fails: the task
    raises and publishes nothing, but the user vector stays cached and a
    membership inserted by the decision engine stays in the table. *)
Theorem X11_failed_publish_keeps_effects
    (isalnum_high isdecimal_high : N -> bool)
    (str_other : Json.value -> pystr)
    (profile_error : Json.value -> Json.value -> Json.value -> option exn)
    (db : DatabaseManager) (openai : OpenAI) (cache : CacheManager)
    (request_id : string) (elapsed_ms : Z) (user_data : UserData)
    (w w5 : World) (v : list float) (ms : list Dict) (r : MatchResult)
    (e : exn) :
  let sanitized := sanitize_and_enrich_profile isalnum_high isdecimal_high
                     openai (ud_bio user_data) (ud_interest_tags user_data) in
  let uid := ud_user_id user_data in
  profile_error sanitized.1.1 sanitized.1.2 sanitized.2 = None ->
  embedding_step str_other openai sanitized.1.1 sanitized.1.2 = inr v ->
  setex_fails cache = None ->
  (_hybrid_matching_algorithm db v (ud_city user_data) (ud_timezone user_data)
     world0).2 = inr ms ->
  _apply_decision_engine db openai request_id uid
    (Json.py_str str_other sanitized.1.1) ms
    (logged (world_at_match w uid v) [PROCESSING "decision_engine"])
  = (w5, inr r) ->
  publish_fails cache = Some e ->
  exists w',
    process_match_task isalnum_high isdecimal_high str_other profile_error
      db openai cache request_id elapsed_ms user_data w = (w', inl e)
    /\ published w' = published w
    /\ user_vectors w' !! uid = Some v
    /\ community_members w ⊆ community_members w'
    /\ (forall cid, auto_joined_community r = Some cid ->
                    (uid, cid) ∈ community_members w').
Proof.
  intros sanitized uid Hprofile Hemb Hset Hm He Hpub. subst sanitized uid.
  eexists. split.
  { rewrite task_run.
    rewrite Hprofile, Hemb, Hset, hybrid_run, Hm, He, Hpub. reflexivity. }
  pose proof (engine_frame db openai request_id (ud_user_id user_data)
                (Json.py_str str_other
                   (sanitize_and_enrich_profile isalnum_high isdecimal_high
                      openai (ud_bio user_data)
                      (ud_interest_tags user_data)).1.1) ms
                (logged (world_at_match w (ud_user_id user_data) v)
                   [PROCESSING "decision_engine"])) as (Hv & Hp & Hsub & _).
  rewrite He in Hv, Hp, Hsub. simpl in Hv, Hp, Hsub.
  split_and!; simpl; try done.
  - rewrite Hv. apply lookup_insert_eq.
  - intros cid Hj. by apply (engine_joined _ _ _ _ _ _ _ _ _ _ He).
Qed.

(** X11 for a Soulmate decision whose publication fails. *)
Lemma X11_failed_publish_keeps_effects_witness :
  exists w',
    process_match_task no_high no_high no_repr accept_profile
      (db_example hits_example) openai_embed_only cache_no_publish "t1" 1500
      user_example world0
    = (w', inl (CollaboratorError "redis"))
    /\ published w' = []
    /\ ("u1", "A") ∈ community_members w'.
Proof.
  destruct (X11_failed_publish_keeps_effects no_high no_high no_repr
              accept_profile
              (db_example hits_example) openai_embed_only cache_no_publish
              "t1" 1500 user_example world0
              (mkWorld ({[ ("u1", "A") ]} ∪ ∅)
                 {[ "u1" := [0.1%float; 0.2%float] ]} []
                 [PROCESSING "sanitization"; PROCESSING "vectorization";
                  PROCESSING "hybrid_matching"; PROCESSING "decision_engine"])
              [0.1%float; 0.2%float] spec_example_output
              (soulmate_result "t1" "u1" (cand "A" "Tech" 0.95) true)
              (CollaboratorError "redis") eq_refl eq_refl eq_refl)
    as (w' & Hrun & Hpub & _ & _ & Hjoin).
  - vm_compute. reflexivity.
  - vm_compute. reflexivity.
  - reflexivity.
  - exists w'. split_and!; [exact Hrun|exact Hpub|by apply Hjoin].
Defined.

(** A returned Soulmate result comes from the branch above 0.87, with the
    insert done. *)
Lemma engine_soulmate_inv (db : DatabaseManager) (openai : OpenAI)
    (task_id user_id : string) (user_bio : pystr) (ms : list Dict)
    (w w' : World) (r : MatchResult) :
  _apply_decision_engine db openai task_id user_id user_bio ms w
  = (w', inr r) ->
  tier r = SOULMATE ->
  exists top rest s generated,
    ms = top :: rest /\ match_score top = Some s
    /\ PyFloat.gt s 0.87 = true /\ insert_fails db = None
    /\ r = soulmate_result task_id user_id top generated
    /\ (user_id, community_id top) ∈ community_members w'.
Proof.
  intros Hrun Htier.
  destruct (engine_result_shape _ _ _ _ _ _ _ _ _ Hrun) as (_ & _ & _ & Hshape).
  rewrite Htier in Hshape. destruct Hshape as (top & rest & -> & _ & Hj & _).
  pose proof (engine_joined _ _ _ _ _ _ _ _ _ _ Hrun Hj) as Hin.
  destruct (engine_nonempty db openai task_id user_id user_bio w top rest)
    as [[_ He]|[(s & Hs & Hgt)|[(s & _ & _ & _ & He)|(s & _ & _ & _ & He)]]].
  - rewrite He in Hrun. done.
  - rewrite (engine_soulmate _ _ _ _ _ _ _ _ _ Hs Hgt) in Hrun.
    destruct (insert_fails db) eqn:Hins; [done|].
    assert (exists b, r = soulmate_result task_id user_id top b) as [b ->].
    { repeat case_match; try done; injection Hrun as <- <-; by eexists. }
    by exists top, rest, s, b.
  - rewrite He in Hrun. injection Hrun as <- <-. done.
  - unfold fallback_result in He. run_st.
    destruct (get_popular_communities db 5);
      rewrite He in Hrun; [done|]. injection Hrun as <- <-. done.
Qed.

(** X12. A task run again after it returned a Soulmate result (the same
    collaborators, the world that the first run left) returns a Soulmate
    result for the same community: the auto-join finds the membership and
    adds nothing, no introduction is requested, and
    [ai_intro_generated] is false. *)
Theorem X12_retry_after_soulmate (isalnum_high isdecimal_high : N -> bool)
    (str_other : Json.value -> pystr)
    (profile_error : Json.value -> Json.value -> Json.value -> option exn)
    (db : DatabaseManager) (openai : OpenAI) (cache : CacheManager)
    (request_id : string) (elapsed_ms : Z) (user_data : UserData)
    (w w1 : World) (r1 : MatchResult) :
  let task := process_match_task isalnum_high isdecimal_high str_other
                profile_error db openai cache request_id elapsed_ms
                user_data in
  task w = (w1, inr r1) ->
  tier r1 = SOULMATE ->
  exists w2 r2,
    task w1 = (w2, inr r2)
    /\ tier r2 = SOULMATE
    /\ matches r2 = matches r1
    /\ auto_joined_community r2 = auto_joined_community r1
    /\ ai_intro_generated r2 = false
    /\ community_members w2 = community_members w1.
Proof.
  intros task Hrun Htier. subst task.
  apply task_success in Hrun
    as (v & ms & w5 & r & Hprofile & Hemb & Hset & Hpub & Hm & He & -> & ->).
  destruct (engine_soulmate_inv _ _ _ _ _ _ _ _ _ He Htier)
    as (top & rest & s & b & -> & Hs & Hgt & Hins & -> & Hin).
  eexists _, _. split.
  { rewrite task_run, Hprofile, Hemb, Hset, hybrid_run, Hm.
    rewrite (engine_soulmate _ _ _ _ _ _ _ _ _ Hs Hgt), Hins.
    rewrite decide_True by exact Hin. rewrite Hpub. reflexivity. }
  by split_and!.
Qed.

(** X12 for the example submission: first run with an introduction,
    second run without. *)
Lemma X12_retry_after_soulmate_witness :
  exists w1 r1 w2 r2,
    process_match_task no_high no_high no_repr accept_profile
      (db_example hits_example) openai_no_moderation cache_up "t1" 1500
      user_example world0
    = (w1, inr r1)
    /\ ai_intro_generated r1 = true
    /\ process_match_task no_high no_high no_repr accept_profile
         (db_example hits_example) openai_no_moderation cache_up "t1" 1500
         user_example w1
       = (w2, inr r2)
    /\ ai_intro_generated r2 = false
    /\ community_members w2 = community_members w1.
Proof.
  eexists _, _.
  assert (process_match_task no_high no_high no_repr accept_profile
            (db_example hits_example) openai_no_moderation cache_up "t1" 1500
            user_example world0
          = (_, inr _)) as Hfirst by (vm_compute; reflexivity).
  destruct (X12_retry_after_soulmate _ _ _ _ _ _ _ _ _ _ _ _ _ Hfirst eq_refl)
    as (w2 & r2 & Hsecond & _ & _ & _ & Hintro & Hmem).
  exists w2, r2. split_and!; [exact Hfirst|reflexivity|exact Hsecond|
                              exact Hintro|exact Hmem].
Defined.

(** ** The auto-join *)

(** X13. The auto-join is an idempotent upsert.  When the insert reaches
    the store, the call returns [True] exactly when the pair was not yet
    in the table, the pair is in the table afterwards, no other pair is
    added or removed, and a second call returns [False] and changes
    nothing.  When the insert fails the call raises and the table is as
    before. *)
Theorem X13_auto_join_upsert (db : DatabaseManager) (user_id cid : string)
    (w : World) :
  (insert_fails db = None ->
   exists w1 joined,
     auto_join_community db user_id cid w = (w1, inr joined)
     /\ (joined = true <-> (user_id, cid) ∉ community_members w)
     /\ community_members w1 = community_members w ∪ {[ (user_id, cid) ]}
     /\ user_vectors w1 = user_vectors w /\ published w1 = published w
     /\ task_updates w1 = task_updates w
     /\ auto_join_community db user_id cid w1 = (w1, inr false))
  /\ (forall e, insert_fails db = Some e ->
                auto_join_community db user_id cid w = (w, inl e)).
Proof.
  split.
  - intros Hins. unfold auto_join_community. rewrite Hins.
    destruct (decide ((user_id, cid) ∈ community_members w)) as [Hin|Hout].
    + exists w, false. rewrite decide_True by done.
      split_and!; try done;
        first [set_solver | split; [done|]; intros Hout; by destruct Hout].
    + eexists _, true. split; [reflexivity|]. simpl.
      rewrite decide_True by set_solver.
      split_and!; try done; set_solver.
  - intros e Hins. unfold auto_join_community. by rewrite Hins.
Qed.

(** X13 for a new pair. *)
Lemma X13_auto_join_upsert_witness :
  exists w1,
    auto_join_community (db_example []) "u1" "A" world0 = (w1, inr true)
    /\ auto_join_community (db_example []) "u1" "A" w1 = (w1, inr false).
Proof.
  destruct (proj1 (X13_auto_join_upsert (db_example []) "u1" "A" world0)
              eq_refl)
    as (w1 & joined & Hrun & Hnew & _ & _ & _ & _ & Hagain).
  exists w1. split; [|exact Hagain].
  rewrite Hrun. do 2 f_equal. apply Hnew. set_solver.
Defined.

(** ** Connections *)

Section Connections.

Variable sio : SocketIO.

(** The acknowledgment that [connect] sends. *)
Local Abbreviation ack user_id sid :=
  (mkEmit "connection_status"
     (ConnectionStatus "connected" user_id "Ready to receive match updates")
     sid).

(** [connect], outcome by outcome. *)
Lemma connect_run (sid user_id : string) (g : Gateway) :
  user_id ≠ "" ->
  connect sio sid (Some user_id) g
  = let registry :=
      <[user_id := default ∅ (active_connections g !! user_id) ∪ {[sid]}]>
        (active_connections g) in
    match session_fails sio sid with
    | Some _ => (mkGateway registry (sessions g) (emitted g), ok false)
    | None =>
        (mkGateway registry (<[sid := user_id]> (sessions g))
           (emitted g ++ [ack user_id sid]),
         ok (delivered sio sid))
    end.
Proof.
  intros Hu. unfold connect. rewrite decide_False by done.
  unfold track_connection, open_session, store_session, emit, delivered.
  run_st. simpl.
  destruct (session_fails sio sid); [done|]. simpl.
  by destruct (emit_fails sio sid).
Qed.

Lemma connect_rejects (sid : string) (auth : option string) (g : Gateway) :
  auth = None \/ auth = Some "" ->
  connect sio sid auth g = (g, ok false).
Proof. by intros [->| ->]. Qed.

(** [disconnect], outcome by outcome. *)
Lemma disconnect_run (sid : string) (g : Gateway) :
  disconnect sio sid g
  = match session_fails sio sid, sessions g !! sid with
    | None, Some user_id =>
        if decide (user_id = "") then (g, ok tt)
        else forget_connection user_id sid g
    | _, _ => (g, ok tt)
    end.
Proof.
  unfold disconnect, open_session, session_user. run_st.
  destruct (session_fails sio sid); [done|]. simpl.
  destruct (sessions g !! sid) as [user_id|]; [|done].
  case_decide; [done|]. unfold forget_connection.
  by destruct (active_connections g !! user_id).
Qed.

End Connections.

(** X14. [connect] never raises.  It returns [True] exactly when a
    non-empty user id is given and both the session and the acknowledgment
    go through; then the connection is in the user's set, the session
    holds the user id, one acknowledgment went to the connection, and the
    other users' sets are as before.  Without a user id the connection is
    rejected and the gateway is left as it was. *)
Theorem X14_connect_outcome (sio : SocketIO) (sid : string)
    (auth : option string) (g : Gateway) :
  let out := connect sio sid auth g in
  (exists accepted, out.2 = inr accepted
     /\ (accepted = true <->
         exists user_id, auth = Some user_id /\ user_id ≠ ""
                         /\ session_fails sio sid = None
                         /\ emit_fails sio sid = None))
  /\ (auth = None \/ auth = Some "" -> out = (g, ok false))
  /\ (forall user_id, auth = Some user_id -> out.2 = inr true ->
        active_connections out.1 !! user_id
        = Some (default ∅ (active_connections g !! user_id) ∪ {[sid]})
        /\ (forall other, other ≠ user_id ->
              active_connections out.1 !! other
              = active_connections g !! other)
        /\ sessions out.1 !! sid = Some user_id
        /\ exists status, emitted out.1
                          = emitted g ++ [mkEmit "connection_status" status sid]).
Proof.
  intros out. subst out. split_and!.
  - destruct auth as [user_id|].
    2:{ exists false. split; [done|]. split; [done|]. by intros (? & ? & _). }
    destruct (decide (user_id = "")) as [->|Hu].
    { exists false. split; [done|]. split; [done|].
      intros (? & [= <-] & ? & _). done. }
    rewrite connect_run by done. unfold delivered.
    destruct (session_fails sio sid) eqn:Hs.
    { exists false. split; [done|]. split; [done|].
      intros (? & _ & _ & ? & _). done. }
    destruct (emit_fails sio sid) eqn:He.
    { exists false. split; [done|]. split; [done|].
      intros (? & _ & _ & _ & ?). done. }
    exists true. split; [done|]. split; [|done]. intros _. by exists user_id.
  - apply connect_rejects.
  - intros user_id -> Htrue.
    destruct (decide (user_id = "")) as [->|Hu]; [done|].
    rewrite connect_run in Htrue |- * by done.
    destruct (session_fails sio sid); [done|]. simpl.
    split_and!.
    + apply lookup_insert_eq.
    + intros other Hne. by rewrite lookup_insert_ne.
    + apply lookup_insert_eq.
    + by eexists.
Qed.

(** X15. A connection whose session cannot be opened is refused but stays
    registered: [connect] returns [False] after it has added the
    connection to the user's set, and with no session stored for it a
    later [disconnect] does not find the user and leaves it there. *)
Theorem X15_refused_connection_stays (sio sio' : SocketIO)
    (sid user_id : string) (g : Gateway) (e : exn) :
  user_id ≠ "" ->
  session_fails sio sid = Some e ->
  sessions g !! sid = None ->
  let refused := connect sio sid (Some user_id) g in
  refused.2 = inr false
  /\ (exists sids, active_connections refused.1 !! user_id = Some sids
                   /\ sid ∈ sids)
  /\ disconnect sio' sid refused.1 = (refused.1, ok tt).
Proof.
  intros Hu Hs Hnone refused. subst refused.
  rewrite connect_run, Hs by done. simpl. split_and!; [done| |].
  - eexists. split; [apply lookup_insert_eq|set_solver].
  - rewrite disconnect_run. simpl. rewrite Hnone.
    by destruct (session_fails sio' sid).
Qed.

(** X15 on a transport that opens no session. *)
Lemma X15_refused_connection_stays_witness :
  let refused := connect sio_no_session "s1" (Some "u1") gateway_other in
  refused.2 = inr false
  /\ (exists sids, active_connections refused.1 !! "u1" = Some sids
                   /\ "s1" ∈ sids)
  /\ disconnect sio_up "s1" refused.1 = (refused.1, ok tt).
Proof.
  apply (X15_refused_connection_stays sio_no_session sio_up "s1" "u1"
           gateway_other (CollaboratorError "session"));
    [discriminate|reflexivity|reflexivity].
Defined.

(** X16. [disconnect] never raises and sends nothing.  For a connection
    whose session names a user, it takes the connection out of that
    user's set and deletes the user's key when the set is left empty, so
    that afterwards the key is absent or holds a non-empty set without the
    connection, whatever the registry held before; the other users' sets
    are untouched.  Without a stored user, or when the session cannot be
    opened, the gateway is left as it was. *)
Theorem X16_disconnect_outcome (sio : SocketIO) (sid : string) (g : Gateway) :
  let out := disconnect sio sid g in
  out.2 = inr tt
  /\ emitted out.1 = emitted g /\ sessions out.1 = sessions g
  /\ (forall user_id,
        session_fails sio sid = None -> sessions g !! sid = Some user_id ->
        user_id ≠ "" ->
        (active_connections out.1 !! user_id
         = match active_connections g !! user_id with
           | Some sids =>
               if decide (sids ∖ {[sid]} = ∅) then None
               else Some (sids ∖ {[sid]})
           | None => None
           end)
        /\ active_connections out.1 !! user_id ≠ Some ∅
        /\ (forall sids, active_connections out.1 !! user_id = Some sids ->
                         sid ∉ sids)
        /\ (forall other, other ≠ user_id ->
              active_connections out.1 !! other
              = active_connections g !! other))
  /\ (sessions g !! sid = None \/ sessions g !! sid = Some ""
      \/ is_Some (session_fails sio sid) ->
      out = (g, ok tt)).
Proof.
  intros out. subst out. rewrite disconnect_run.
  assert (forall user_id,
             (forget_connection user_id sid g).2 = inr tt
             /\ emitted (forget_connection user_id sid g).1 = emitted g
             /\ sessions (forget_connection user_id sid g).1 = sessions g)
    as Hforget.
  { intros u. unfold forget_connection.
    by destruct (active_connections g !! u). }
  split_and!.
  - repeat case_match; try done; apply Hforget.
  - repeat case_match; try done; apply Hforget.
  - repeat case_match; try done; apply Hforget.
  - intros user_id -> -> Hu. rewrite decide_False by done.
    unfold forget_connection.
    destruct (active_connections g !! user_id) as [sids|] eqn:Hg; simpl.
    + case_decide as Hempty.
      * rewrite lookup_delete_eq. split_and!; try done.
        intros other Hne. by rewrite lookup_delete_ne.
      * rewrite lookup_insert_eq. split_and!; try done.
        -- by intros [= ?].
        -- intros ? [= <-]. set_solver.
        -- intros other Hne. by rewrite lookup_insert_ne.
    + rewrite Hg. by split_and!.
  - intros [->|[->|[e ->]]]; [by destruct (session_fails sio sid)| |done].
    destruct (session_fails sio sid); [done|]. by rewrite decide_True.
Qed.

(** X17. Connect, then disconnect: when every user key holds a non-empty
    set and the connection is new for the user, a [connect] whose session
    opens followed by the [disconnect] of the same connection leaves the
    registry exactly as it was, also when the acknowledgment failed. *)
Theorem X17_connect_disconnect_round_trip (sio sio' : SocketIO)
    (sid user_id : string) (g : Gateway) :
  user_id ≠ "" ->
  no_empty_sets (active_connections g) ->
  sid ∉ default ∅ (active_connections g !! user_id) ->
  session_fails sio sid = None ->
  session_fails sio' sid = None ->
  active_connections
    (disconnect sio' sid (connect sio sid (Some user_id) g).1).1
  = active_connections g.
Proof.
  intros Hu Hinv Hnew Hs Hs'.
  rewrite connect_run, Hs by done. cbn [fst].
  rewrite disconnect_run, Hs'. cbn [sessions].
  rewrite lookup_insert_eq, decide_False by done.
  unfold forget_connection. cbn [active_connections].
  rewrite lookup_insert_eq.
  destruct (active_connections g !! user_id) as [sids|] eqn:Hg; simpl in *.
  - assert ((sids ∪ {[sid]}) ∖ {[sid]} = sids) as -> by set_solver.
    rewrite decide_False by (by apply (Hinv user_id)).
    rewrite insert_insert_eq. by apply insert_id.
  - assert ((∅ ∪ {[sid]}) ∖ {[sid]} = (∅ : gset string)) as -> by set_solver.
    rewrite decide_True by done.
    rewrite delete_insert_eq. by apply delete_id.
Qed.

(** X17 for a second connection of [u2] and a first one of [u1]. *)
Lemma X17_connect_disconnect_round_trip_witness :
  active_connections
    (disconnect sio_up "s1" (connect sio_up "s1" (Some "u1") gateway_other).1).1
  = active_connections gateway_other
  /\ active_connections
       (disconnect sio_up "s1"
          (connect sio_up "s1" (Some "u2") gateway_other).1).1
     = active_connections gateway_other.
Proof.
  assert (no_empty_sets (active_connections gateway_other)) as Hinv.
  { intros u sids. simpl. destruct (decide (u = "u2")) as [->|Hne].
    - rewrite lookup_singleton_eq. intros [= <-]. set_solver.
    - by rewrite lookup_singleton_ne. }
  split.
  - apply X17_connect_disconnect_round_trip;
      [discriminate|exact Hinv|set_solver|reflexivity|reflexivity].
  - apply X17_connect_disconnect_round_trip;
      [discriminate|exact Hinv| |reflexivity|reflexivity].
    simpl. rewrite lookup_singleton_eq. simpl. set_solver.
Defined.

(** X18. [connect] and [disconnect] keep the registry free of empty sets:
    if every user key holds a non-empty set before, then so it does after
    either handler, whatever its outcome. *)
Theorem X18_handlers_keep_sets_non_empty (sio : SocketIO) (sid : string)
    (auth : option string) (g : Gateway) :
  no_empty_sets (active_connections g) ->
  no_empty_sets (active_connections (connect sio sid auth g).1)
  /\ no_empty_sets (active_connections (disconnect sio sid g).1).
Proof.
  intros Hinv. split.
  - by apply connect_no_empty_sets.
  - by apply disconnect_no_empty_sets.
Qed.

(** X18 when the only connection of [u1] disconnects: the key goes. *)
Lemma X18_handlers_keep_sets_non_empty_witness :
  no_empty_sets (active_connections (connect sio_up "s2" (Some "u1") gateway_one).1)
  /\ no_empty_sets (active_connections (disconnect sio_up "s2" gateway_one).1).
Proof.
  apply X18_handlers_keep_sets_non_empty.
  intros u sids. simpl. destruct (decide (u = "u1")) as [->|Hne].
  - rewrite lookup_singleton_eq. intros [= <-]. set_solver.
  - by rewrite lookup_singleton_ne.
Defined.

(** X19. Connect, then broadcast: after an accepted [connect], a result
    broadcast to the user is attempted on the new connection, and on
    every connection that the user held before. *)
Theorem X19_connected_gets_result (sio sio' : SocketIO) (sid user_id : string)
    (result : MatchResult) (g : Gateway) :
  (connect sio sid (Some user_id) g).2 = inr true ->
  let g1 := (connect sio sid (Some user_id) g).1 in
  let g2 := (broadcast_to_user sio' user_id result g1).1 in
  attempt result sid ∈ emitted g2
  /\ (forall old sids, active_connections g !! user_id = Some sids ->
                       old ∈ sids -> attempt result old ∈ emitted g2)
  /\ (broadcast_to_user sio' user_id result g1).2 = inr tt.
Proof.
  intros Htrue g1 g2. subst g1 g2.
  destruct (decide (user_id = "")) as [->|Hu]; [done|].
  rewrite connect_run in Htrue |- * by done.
  destruct (session_fails sio sid); [done|]. cbn [fst] in *.
  unfold broadcast_to_user. cbn [active_connections].
  rewrite lookup_insert_eq.
  erewrite broadcast_loop_run by (simpl; apply lookup_insert_eq).
  cbn [fst snd emitted]. split_and!; [| |done].
  - apply elem_of_app. right. apply list_elem_of_fmap_2.
    apply elem_of_elements. set_solver.
  - intros old sids Hg Hold. rewrite Hg. simpl.
    apply elem_of_app. right. apply list_elem_of_fmap_2.
    apply elem_of_elements. set_solver.
Qed.

(** X19 for a second connection of [u2]. *)
Lemma X19_connected_gets_result_witness :
  let g1 := (connect sio_up "s1" (Some "u2") gateway_other).1 in
  let g2 := (broadcast_to_user sio_s2_stale "u2" result_example g1).1 in
  attempt result_example "s1" ∈ emitted g2
  /\ attempt result_example "s9" ∈ emitted g2.
Proof.
  destruct (X19_connected_gets_result sio_up sio_s2_stale "s1" "u2"
              result_example gateway_other eq_refl) as (Hnew & Hold & _).
  split; [exact Hnew|].
  apply (Hold "s9" {[ "s9" ]}); [reflexivity|set_solver].
Defined.

(** ** The channel of a user *)

Section Replace.

Lemma prefix_split (p s : string) :
  String.prefix p s = true -> exists rest, s = p +:+ rest.
Proof.
  revert s. induction p as [|a p IH]; intros [|b s]; simpl; try done.
  - intros _. by exists "".
  - intros _. by exists (String b s).
  - destruct (Ascii.ascii_dec a b) as [->|]; [|done].
    intros [rest ->]%IH. by exists rest.
Qed.

Lemma prefix_append (p rest : string) : String.prefix p (p +:+ rest) = true.
Proof.
  induction p as [|a p IH]; simpl; [by destruct rest|].
  by destruct (Ascii.ascii_dec a a).
Qed.

(** An occurrence that does not start at the first character lies in the
    tail. *)
Lemma contains_tail (c : ascii) (s old : string) :
  PyStr.contains (String c s) old ->
  String.prefix old (String c s) = false ->
  PyStr.contains s old.
Proof.
  intros ([|c' before] & after & Heq) Hp.
  - change (String c s = old +:+ after) in Heq.
    rewrite Heq, prefix_append in Hp. done.
  - change (String c s = String c' (before +:+ old +:+ after)) in Heq.
    injection Heq as _ ->. by exists before, after.
Qed.

(** Without an occurrence, [replace] returns the string itself. *)
Lemma replace_absent (old new s : string) :
  ~ PyStr.contains s old -> PyStr.replace_from old new 0 s = s.
Proof.
  induction s as [|c s IH]; intros Hno; [done|].
  cbn [PyStr.replace_from].
  destruct (String.prefix old (String c s)) eqn:Hp.
  - exfalso. apply Hno. apply prefix_split in Hp as [rest Hrest].
    exists "", rest. by rewrite Hrest.
  - f_equal. apply IH. intros (before & after & ->). apply Hno.
    by exists (String c before), after.
Qed.

Lemma replace_length_le (old : string) (s : string) : forall skip,
  (String.length (PyStr.replace_from old "" skip s) <= String.length s)%nat.
Proof.
  induction s as [|c s IH]; intros skip; [done|].
  cbn [PyStr.replace_from]. destruct skip as [|n].
  - destruct (String.prefix old (String c s)).
    + change ("" +:+ ?x) with x. cbn [String.length].
      specialize (IH (String.length old - 1)%nat). lia.
    + cbn [String.length]. specialize (IH 0%nat). lia.
  - cbn [String.length]. specialize (IH n). lia.
Qed.

(** With an occurrence of a non-empty [old], removing [old] makes the
    string shorter. *)
Lemma replace_present_shorter (old s : string) :
  old ≠ "" ->
  PyStr.contains s old ->
  (String.length (PyStr.replace_from old "" 0 s) < String.length s)%nat.
Proof.
  intros Hold. induction s as [|c s IH]; intros Hin.
  { destruct Hin as ([|] & after & Heq); [|discriminate].
    destruct old; [done|discriminate]. }
  cbn [PyStr.replace_from].
  destruct (String.prefix old (String c s)) eqn:Hp.
  - change ("" +:+ ?x) with x. cbn [String.length].
    pose proof (replace_length_le old s (String.length old - 1)). lia.
  - cbn [String.length]. specialize (IH (contains_tail _ _ _ Hin Hp)). lia.
Qed.

(** Passing the characters of a running occurrence. *)
Lemma replace_skip (old new q rest : string) :
  PyStr.replace_from old new (String.length q) (q +:+ rest)
  = PyStr.replace_from old new 0 rest.
Proof. induction q as [|a q IH]; [done|]. exact IH. Qed.

(** An occurrence at the very start is replaced, and the scan resumes
    after it. *)
Lemma replace_strip (a : ascii) (p rest new : string) :
  PyStr.replace_from (String a p) new 0 (String a p +:+ rest)
  = new +:+ PyStr.replace_from (String a p) new 0 rest.
Proof.
  change (String a p +:+ rest) with (String a (p +:+ rest)).
  cbn [PyStr.replace_from].
  change (String a (p +:+ rest)) with (String a p +:+ rest).
  rewrite prefix_append. f_equal.
  cbn [String.length]. rewrite Nat.sub_1_r. cbn [Nat.pred].
  apply replace_skip.
Qed.

End Replace.

(** X20. The listener finds the user of a channel by deleting
    ["match_updates_"] from the channel name.  This returns the user id
    under which the result was published exactly when that id does not
    itself contain ["match_updates_"]; for such a user, handling the
    published message is the broadcast to that user.  A message of
    another type, or one whose payload cannot be decoded, leaves the
    gateway as it was. *)
Theorem X20_listener_routing (user_id : string) :
  (user_of_channel (channel_of user_id) = user_id
   <-> ~ PyStr.contains user_id "match_updates_")
  /\ (forall sio result g,
         ~ PyStr.contains user_id "match_updates_" ->
         on_message sio (message_of user_id result) g
         = broadcast_to_user sio user_id result g)
  /\ (forall sio message g,
         msg_type message ≠ "pmessage" \/ msg_data message = None ->
         on_message sio message g = (g, ok tt)).
Proof.
  assert (user_of_channel (channel_of user_id)
          = PyStr.replace_from "match_updates_" "" 0 user_id) as Hstrip.
  { unfold user_of_channel, channel_of, PyStr.replace.
    apply (replace_strip "m" "atch_updates_" user_id ""). }
  split_and!.
  - rewrite Hstrip. split.
    + intros Heq Hin.
      pose proof (replace_present_shorter "match_updates_" user_id) as Hlt.
      rewrite Heq in Hlt. specialize (Hlt ltac:(discriminate) Hin). lia.
    + apply replace_absent.
  - intros sio result g Hno. unfold on_message, message_of.
    cbn [msg_type msg_channel msg_data]. rewrite decide_True by done.
    rewrite Hstrip. by rewrite replace_absent.
  - intros sio message g [Hty|Hdata]; unfold on_message.
    + by rewrite decide_False.
    + rewrite Hdata. by case_decide.
Qed.

(** A user id that contains the prefix is cut short: the result published
    for ["match_updates_u2"] is routed to ["u2"]. *)
Example channel_of_prefixed_user :
  user_of_channel (channel_of "match_updates_u2") = "u2".
Proof. reflexivity. Qed.

(** X21. From the task to the sockets: when a task returns, the last
    published message is its result under its user; if the user id does
    not contain ["match_updates_"], the listener that handles this message
    attempts a delivery of the result on every connection registered for
    the user, and raises nothing. *)
Theorem X21_result_reaches_connections
    (isalnum_high isdecimal_high : N -> bool)
    (str_other : Json.value -> pystr)
    (profile_error : Json.value -> Json.value -> Json.value -> option exn)
    (db : DatabaseManager) (openai : OpenAI) (cache : CacheManager)
    (request_id : string) (elapsed_ms : Z) (user_data : UserData)
    (w w' : World) (r : MatchResult)
    (sio : SocketIO) (g : Gateway) (connections : gset string) :
  let uid := ud_user_id user_data in
  process_match_task isalnum_high isdecimal_high str_other profile_error
    db openai cache request_id elapsed_ms user_data w = (w', inr r) ->
  ~ PyStr.contains uid "match_updates_" ->
  active_connections g !! uid = Some connections ->
  last (published w') = Some (uid, r)
  /\ (on_message sio (message_of uid r) g).2 = inr tt
  /\ forall sid, sid ∈ connections ->
       attempt r sid ∈ emitted (on_message sio (message_of uid r) g).1.
Proof.
  intros uid Hrun Hno Hg. subst uid.
  apply task_success in Hrun
    as (v & ms & w5 & r0 & _ & _ & _ & _ & _ & _ & -> & ->).
  split; [simpl; by rewrite last_snoc|].
  unfold on_message, message_of. cbn [msg_type msg_channel msg_data].
  rewrite decide_True by done.
  assert (user_of_channel (channel_of (ud_user_id user_data))
          = ud_user_id user_data) as ->.
  { unfold user_of_channel, channel_of, PyStr.replace.
    rewrite (replace_strip "m" "atch_updates_" _ "").
    by apply replace_absent. }
  unfold broadcast_to_user. rewrite Hg.
  rewrite (broadcast_loop_run sio _ _ (elements connections) g connections Hg).
  split; [done|]. intros sid Hsid. cbn [fst emitted].
  apply elem_of_app. right. apply list_elem_of_fmap_2.
  by apply elem_of_elements.
Qed.

(** X21 for the example submission and a user with three connections. *)
Lemma X21_result_reaches_connections_witness :
  exists w' r,
    process_match_task no_high no_high no_repr accept_profile
      (db_example hits_example) openai_embed_only cache_up "t1" 1500
      user_example world0 = (w', inr r)
    /\ last (published w') = Some ("u1", r)
    /\ attempt r "s3"
       ∈ emitted (on_message sio_s2_stale (message_of "u1" r) gateway_three).1.
Proof.
  eexists _, _.
  assert (process_match_task no_high no_high no_repr accept_profile
            (db_example hits_example) openai_embed_only cache_up "t1" 1500
            user_example world0
          = (_, inr _)) as Hrun by (vm_compute; reflexivity).
  destruct (X21_result_reaches_connections _ _ _ _ _ _ _ _ _ _ _ _ _
              sio_s2_stale gateway_three {[ "s1"; "s2"; "s3" ]} Hrun)
    as (Hlast & _ & Hall).
  - intros (before & after & Heq). simpl in Heq.
    destruct before as [|c1 [|c2 [|c3 before]]]; simpl in Heq; discriminate.
  - reflexivity.
  - split_and!; [exact Hrun|exact Hlast|]. apply Hall. set_solver.
Defined.
